(** * Gangway HTTP handlers (cmd/gangway/handlers.go)

    A shallow embedding of the login callback, the credential assembler
    [generateInfo], the kubeconfig generator [generateKubeConfig] and the
    [/kubeconfig] endpoint, together with the properties the specification
    states about them.

    Go values are modelled as follows:
    - [string] is Rocq's [string]; [[]byte] is [list Byte.byte];
    - [interface{}] is the inductive [iface] (nil, a string, or a value of
      another dynamic type);
    - [map[string]T] is stdpp's [gmap string T]; reading a missing key gives
      the zero value of [T];
    - a slice is a [list]; [append] is list concatenation;
    - a handler is a computation in the monad [M], which threads the
      handler state (cookie jar, response writer, log, outbound exchanges)
      and stops at the first [return]. *)

From Stdlib Require Import String Ascii List ZArith Lia.
From Stdlib Require Import Strings.Byte.
From stdpp Require Import base option gmap strings list.

Local Open Scope string_scope.
Local Open Scope list_scope.

(** ** Go strings and byte slices *)

Definition bytes := list Byte.byte.

(** [[]byte(s)] *)
Definition bytes_of_string (s : string) : bytes := list_byte_of_string s.

(** [string(b)] *)
Definition string_of_bytes (b : bytes) : string := string_of_list_byte b.

(** [strings.Join(elems, sep)] *)
Fixpoint Join (elems : list string) (sep : string) : string :=
  match elems with
  | [] => ""
  | [e] => e
  | e :: rest => e +:+ sep +:+ Join rest sep
  end.

(** Number of occurrences of the character [c] in [s]. *)
Fixpoint count_char (c : ascii) (s : string) : nat :=
  match s with
  | EmptyString => 0
  | String a s' => (if Ascii.eqb a c then 1 else 0) + count_char c s'
  end.

(** ** Dynamic values: Go's [interface{}] *)

Inductive iface :=
| INil
| IString (s : string)
| INumber (n : Z)
| IBool (b : bool).

#[global] Instance iface_eq_dec : EqDecision iface.
Proof. solve_decision. Defined.

(** The type assertion [v.(string)], with its [ok] flag as the option. *)
Definition as_string (v : iface) : option string :=
  match v with
  | IString s => Some s
  | _ => None
  end.

(** [m[k]] on a [map[K]interface{}]: a missing key reads as nil. *)
Definition index (m : gmap string iface) (k : string) : iface :=
  default INil (m !! k).

Arguments index : simpl never.

(** ** client-go's kubeconfig types (k8s.io/client-go/tools/clientcmd/api/v1) *)

Module clientcmdapi.

Record Cluster := {
  Server : string;
  InsecureSkipTLSVerify : bool;
  CertificateAuthority : string;
  CertificateAuthorityData : bytes;
}.

Record NamedCluster := {
  cluster_Name : string;
  cluster_Cluster : Cluster;
}.

Record Context := {
  ctx_Cluster : string;
  ctx_AuthInfo : string;
  ctx_Namespace : string;
}.

Record NamedContext := {
  context_Name : string;
  context_Context : Context;
}.

Record AuthProviderConfig := {
  provider_Name : string;
  provider_Config : gmap string string;
}.

Record AuthInfo := {
  AuthProvider : option AuthProviderConfig;
}.

Record NamedAuthInfo := {
  authinfo_Name : string;
  authinfo_AuthInfo : AuthInfo;
}.

Record Config := {
  Kind : string;
  APIVersion : string;
  CurrentContext : string;
  Clusters : list NamedCluster;
  Contexts : list NamedContext;
  AuthInfos : list NamedAuthInfo;
}.

(** Assignment to the [CertificateAuthorityData] field of a
    [NamedCluster] value. *)
Definition set_CertificateAuthorityData (nc : NamedCluster) (d : bytes)
  : NamedCluster :=
  {| cluster_Name := cluster_Name nc;
     cluster_Cluster :=
       {| Server := Server (cluster_Cluster nc);
          InsecureSkipTLSVerify := InsecureSkipTLSVerify (cluster_Cluster nc);
          CertificateAuthority := CertificateAuthority (cluster_Cluster nc);
          CertificateAuthorityData := d |} |}.

End clientcmdapi.

(** ** [userInfo]: information about an authenticated user

    [generateKubeConfig] reads [cfg.Email]; the struct declaration of
    handlers.go lists no such field and [generateInfo] never sets one, so
    [Email] is carried here as one more string field, empty in every record
    [generateInfo] builds. *)

Record userInfo := {
  ClusterName : string;
  Username : string;
  KubeCfgUser : string;
  IDToken : string;
  RefreshToken : string;
  ClientID : string;
  ClientSecret : string;
  IssuerURL : string;
  APIServerURL : string;
  ClusterCA : string;
  HTTPPath : string;
  Clusters : list clientcmdapi.NamedCluster;
  Email : string;
}.

(** [cfg.Clusters = l] on a [*userInfo]. *)
Definition set_Clusters (cfg : userInfo) (l : list clientcmdapi.NamedCluster)
  : userInfo :=
  {| ClusterName := ClusterName cfg;
     Username := Username cfg;
     KubeCfgUser := KubeCfgUser cfg;
     IDToken := IDToken cfg;
     RefreshToken := RefreshToken cfg;
     ClientID := ClientID cfg;
     ClientSecret := ClientSecret cfg;
     IssuerURL := IssuerURL cfg;
     APIServerURL := APIServerURL cfg;
     ClusterCA := ClusterCA cfg;
     HTTPPath := HTTPPath cfg;
     Clusters := l;
     Email := Email cfg |}.

(** ** [generateKubeConfig] *)

(** The cluster entry appended for the primary cluster (lines 97-103). *)
Definition primaryCluster (cfg : userInfo) : clientcmdapi.NamedCluster :=
  {| clientcmdapi.cluster_Name := ClusterName cfg;
     clientcmdapi.cluster_Cluster :=
       {| clientcmdapi.Server := APIServerURL cfg;
          clientcmdapi.InsecureSkipTLSVerify := false;
          clientcmdapi.CertificateAuthority := "";
          clientcmdapi.CertificateAuthorityData :=
            bytes_of_string (ClusterCA cfg) |} |}.

(** One iteration of [for _, namedCluster := range cfg.Clusters] (lines
    107-116).  [namedCluster] is the loop's own copy of the slice element:
    the body appends a context and then assigns to the copy.  The result is
    the copy after the body together with the grown [contexts]. *)
Definition rangeBody (cfg : userInfo) (namedCluster : clientcmdapi.NamedCluster)
    (contexts : list clientcmdapi.NamedContext)
  : clientcmdapi.NamedCluster * list clientcmdapi.NamedContext :=
  let contexts :=
    contexts ++
      [ {| clientcmdapi.context_Name := clientcmdapi.cluster_Name namedCluster;
           clientcmdapi.context_Context :=
             {| clientcmdapi.ctx_Cluster := clientcmdapi.cluster_Name namedCluster;
                clientcmdapi.ctx_AuthInfo := Email cfg;
                clientcmdapi.ctx_Namespace := "" |} |} ] in
  let namedCluster :=
    clientcmdapi.set_CertificateAuthorityData namedCluster
      (bytes_of_string (ClusterCA cfg)) in
  (namedCluster, contexts).

(** The [range] loop: each element is copied into the loop variable, the
    body runs on the copy, and the copy is dropped at the end of the
    iteration; the slice being ranged over is not written. *)
Fixpoint rangeClusters (cfg : userInfo) (elems : list clientcmdapi.NamedCluster)
    (contexts : list clientcmdapi.NamedContext)
  : list clientcmdapi.NamedContext :=
  match elems with
  | [] => contexts
  | namedCluster :: rest =>
      let '(_, contexts) := rangeBody cfg namedCluster contexts in
      rangeClusters cfg rest contexts
  end.

(** [generateKubeConfig(cfg *userInfo)].  The argument is a pointer and the
    first statement assigns to [cfg.Clusters], so the function returns the
    record as it is left behind together with the document. *)
Definition generateKubeConfig (cfg : userInfo) : userInfo * clientcmdapi.Config :=
  let cfg := set_Clusters cfg (Clusters cfg ++ [primaryCluster cfg]) in
  let contexts := rangeClusters cfg (Clusters cfg) [] in
  let kcfg :=
    {| clientcmdapi.Kind := "Config";
       clientcmdapi.APIVersion := "v1";
       clientcmdapi.CurrentContext := ClusterName cfg;
       clientcmdapi.Clusters := Clusters cfg;
       clientcmdapi.Contexts := contexts;
       clientcmdapi.AuthInfos :=
         [ {| clientcmdapi.authinfo_Name := KubeCfgUser cfg;
              clientcmdapi.authinfo_AuthInfo :=
                {| clientcmdapi.AuthProvider :=
                     Some {| clientcmdapi.provider_Name := "oidc";
                             clientcmdapi.provider_Config :=
                               <["client-id" := ClientID cfg]>
                               (<["client-secret" := ClientSecret cfg]>
                               (<["id-token" := IDToken cfg]>
                               (<["idp-issuer-url" := IssuerURL cfg]>
                               (<["refresh-token" := RefreshToken cfg]> ∅))))
                          |} |} |} ] |} in
  (cfg, kcfg).

(** ** The outside world of a handler *)

(** Results of calls that return [(value, error)]. *)
Inductive result (A : Type) :=
| Ok (a : A)
| Err (err : string).
Arguments Ok {A} a.
Arguments Err {A} err.

(** The process-wide configuration [cfg] (package internal/config), with the
    fields handlers.go reads. *)
Module config.
Record Config := {
  HTTPPath : string;
  ClusterCAPath : string;
  ClusterName : string;
  ClientID : string;
  ClientSecret : string;
  UsernameClaim : string;
  EmailClaim : string;
  APIServerURL : string;
  Clusters : list clientcmdapi.NamedCluster;
}.
End config.

(** [oauth2.Token]: the refresh token and the raw provider response that
    [Extra] reads. *)
Module oauth2.
Record Token := {
  RefreshToken : string;
  raw : gmap string iface;
}.
Definition Extra (t : Token) (key : string) : iface := index (raw t) key.
End oauth2.

(** gorilla's cookie-backed sessions.  The browser's cookie jar holds, per
    session name, either a cookie that decodes to a value map or one that
    does not decode. *)
Module sessions.
Inductive Cookie :=
| Valid (values : gmap string iface)
| Corrupt (err : string).

Record Session := {
  Name : string;
  Values : gmap string iface;
}.

(** [session.Values[k] = v] *)
Definition set_Value (s : Session) (k : string) (v : iface) : Session :=
  {| Name := Name s; Values := <[k := v]> (Values s) |}.
End sessions.

(** What [os.Open] followed by [ioutil.ReadAll] meets at a path: no file
    that can be opened, or a file whose read yields [data] and possibly an
    error.  [ReadAll] returns the data read so far along with the error. *)
Inductive FileState :=
| Missing (err : string)
| Present (data : bytes) (rerr : option string).

Record Request := {
  Query : gmap string (list string);
  Cookies : gmap string sessions.Cookie;
}.

(** [r.URL.Query().Get(key)]: the first value of the key, or the empty
    string. *)
Definition Query_Get (r : Request) (key : string) : string :=
  match Query r !! key with
  | Some (v :: _) => v
  | _ => ""
  end.

(** The collaborators a handler calls into. *)
Record Env := {
  cfg : config.Config;
  fs : string -> FileState;
  Exchange : string -> result oauth2.Token;
  ParseToken : string -> string -> result (gmap string iface);
  yaml_Marshal : clientcmdapi.Config -> result bytes;
  Save_err : string -> gmap string iface -> option string;
}.

(** Calls made on the [http.ResponseWriter], in order. *)
Inductive RespOp :=
| HttpError (msg : string) (code : nat)
| HttpRedirect (url : string) (code : nat)
| HeaderAdd (key value : string)
| BodyWrite (d : bytes).

Definition StatusOK : nat := 200.
Definition StatusSeeOther : nat := 303.
Definition StatusTemporaryRedirect : nat := 307.
Definition StatusForbidden : nat := 403.
Definition StatusInternalServerError : nat := 500.

(** [http.StatusText] on the codes handlers.go passes to it. *)
Definition StatusText (code : nat) : string :=
  if Nat.eqb code 403 then "Forbidden"
  else if Nat.eqb code 500 then "Internal Server Error"
  else "".

(** The status line of the response: the first call that writes the header
    decides it; a body written first implies 200. *)
Fixpoint statusOf (ops : list RespOp) : option nat :=
  match ops with
  | [] => None
  | HttpError _ code :: _ => Some code
  | HttpRedirect _ code :: _ => Some code
  | BodyWrite _ :: _ => Some StatusOK
  | HeaderAdd _ _ :: rest => statusOf rest
  end.

Inductive LogEntry :=
| LogError (msg : string)
| LogWarning (msg : string).

(** State threaded through one handler invocation. *)
Record HState := {
  jar : gmap string sessions.Cookie;
  resp : list RespOp;
  logs : list LogEntry;
  exchanges : list string;
}.

(** The state a request starts in: the jar is what the browser sent. *)
Definition start (r : Request) : HState :=
  {| jar := Cookies r; resp := []; logs := []; exchanges := [] |}.

(** ** The handler monad: state, and [None] once the handler has returned *)

Definition M (A : Type) : Type := HState -> option A * HState.

Definition ret {A} (a : A) : M A := fun s => (Some a, s).

Definition bind {A B} (m : M A) (k : A -> M B) : M B :=
  fun s => match m s with
           | (Some a, s') => k a s'
           | (None, s') => (None, s')
           end.

(** [return] from the handler. *)
Definition stop {A} : M A := fun s => (None, s).

Notation "x <~ m ;; k" := (bind m (fun x => k))
  (at level 100, m at next level, right associativity).
Notation "m ;;; k" := (bind m (fun _ => k))
  (at level 100, right associativity).

(** [if err != nil { onErr; return }] after a call returning a value. *)
Definition try_ {A} (x : result A) (onErr : string -> M unit) : M A :=
  match x with
  | Ok a => ret a
  | Err e => onErr e ;;; stop
  end.

(** [if err != nil { onErr }], carrying on afterwards. *)
Definition whenErr (err : option string) (onErr : string -> M unit) : M unit :=
  match err with
  | Some e => onErr e
  | None => ret tt
  end.

(** [v, ok := x.(string); if !ok { onFail; return nil }] *)
Definition try_string (x : iface) (onFail : M unit) : M string :=
  match as_string x with
  | Some v => ret v
  | None => onFail ;;; stop
  end.

Definition http_Error (msg : string) (code : nat) : M unit :=
  fun s => (Some tt, {| jar := jar s; resp := resp s ++ [HttpError msg code];
                        logs := logs s; exchanges := exchanges s |}).

Definition http_Redirect (url : string) (code : nat) : M unit :=
  fun s => (Some tt, {| jar := jar s; resp := resp s ++ [HttpRedirect url code];
                        logs := logs s; exchanges := exchanges s |}).

Definition Header_Add (key value : string) : M unit :=
  fun s => (Some tt, {| jar := jar s; resp := resp s ++ [HeaderAdd key value];
                        logs := logs s; exchanges := exchanges s |}).

Definition w_Write (d : bytes) : M unit :=
  fun s => (Some tt, {| jar := jar s; resp := resp s ++ [BodyWrite d];
                        logs := logs s; exchanges := exchanges s |}).

Definition log_Errorf (msg : string) : M unit :=
  fun s => (Some tt, {| jar := jar s; resp := resp s;
                        logs := logs s ++ [LogError msg];
                        exchanges := exchanges s |}).

Definition log_Warningf (msg : string) : M unit :=
  fun s => (Some tt, {| jar := jar s; resp := resp s;
                        logs := logs s ++ [LogWarning msg];
                        exchanges := exchanges s |}).

(** [gangwayUserSession.Session.Get(r, name)]: get-or-create from the
    request's cookies. *)
Definition Session_Get (r : Request) (name : string) : result sessions.Session :=
  match Cookies r !! name with
  | None => Ok {| sessions.Name := name; sessions.Values := ∅ |}
  | Some (sessions.Valid v) => Ok {| sessions.Name := name; sessions.Values := v |}
  | Some (sessions.Corrupt e) => Err e
  end.

(** [session.Save(r, w)]: on success the response sets the cookie to the
    session's current values. *)
Definition Session_Save (E : Env) (s : sessions.Session) : M (result unit) :=
  fun st =>
    match Save_err E (sessions.Name s) (sessions.Values s) with
    | Some e => (Some (Err e), st)
    | None =>
        (Some (Ok tt),
         {| jar := <[sessions.Name s := sessions.Valid (sessions.Values s)]> (jar st);
            resp := resp st; logs := logs st; exchanges := exchanges st |})
    end.

(** Modelled from the spec: [gangwayUserSession.Cleanup] (package
    internal/session) is not part of handlers.go.  The specification has it
    clear the named session partition unconditionally, clearing an absent
    partition without error: the cookie leaves the jar and nothing is
    written to the response. *)
Definition Cleanup (name : string) : M unit :=
  fun s => (Some tt, {| jar := delete name (jar s); resp := resp s;
                        logs := logs s; exchanges := exchanges s |}).

(** [o2token.Exchange(ctx, code)]: the outbound call is recorded. *)
Definition o2token_Exchange (E : Env) (code : string) : M (result oauth2.Token) :=
  fun s => (Some (Exchange E code),
            {| jar := jar s; resp := resp s; logs := logs s;
               exchanges := exchanges s ++ [code] |}).

(** [os.Open(path)]: the file, or nil and an error. *)
Definition os_Open (E : Env) (path : string)
  : option (bytes * option string) * option string :=
  match fs E path with
  | Missing e => (None, Some e)
  | Present data rerr => (Some (data, rerr), None)
  end.

(** [ioutil.ReadAll(file)]: a nil [*os.File] reads nothing and reports an
    invalid argument; otherwise the data read and the read error, if any. *)
Definition ioutil_ReadAll (file : option (bytes * option string))
  : bytes * option string :=
  match file with
  | None => ([], Some "invalid argument")
  | Some (data, rerr) => (data, rerr)
  end.

(** ** [callbackHandler] *)

Definition callbackHandler (E : Env) (r : Request) : M unit :=
  (* load up session cookies *)
  session <~ try_ (Session_Get r "gangway")
               (fun err => http_Error err StatusInternalServerError) ;;
  sessionIDToken <~ try_ (Session_Get r "gangway_id_token")
               (fun err => http_Error err StatusInternalServerError) ;;
  sessionRefreshToken <~ try_ (Session_Get r "gangway_refresh_token")
               (fun err => http_Error err StatusInternalServerError) ;;
  (* verify the state string *)
  let state := Query_Get r "state" in
  if bool_decide (IString state <> index (sessions.Values session) "state") then
    http_Error (StatusText StatusForbidden) StatusForbidden ;;; stop
  else
    (* use the access code to retrieve a token *)
    let code := Query_Get r "code" in
    res <~ o2token_Exchange E code ;;
    token <~ try_ res (fun err => http_Error err StatusInternalServerError) ;;
    let sessionIDToken :=
      sessions.set_Value sessionIDToken "id_token" (oauth2.Extra token "id_token") in
    let sessionRefreshToken :=
      sessions.set_Value sessionRefreshToken "refresh_token"
        (IString (oauth2.RefreshToken token)) in
    (* save the session cookies *)
    res <~ Session_Save E session ;;
    try_ res (fun err => http_Error err StatusInternalServerError) ;;;
    res <~ Session_Save E sessionIDToken ;;
    try_ res (fun err => http_Error err StatusInternalServerError) ;;;
    res <~ Session_Save E sessionRefreshToken ;;
    try_ res (fun err => http_Error err StatusInternalServerError) ;;;
    http_Redirect (config.HTTPPath (cfg E) +:+ "/commandline") StatusSeeOther.

(** ** [generateInfo]

    The result [None] is the nil record: [generateInfo] has written the
    response itself and its caller returns at once. *)

(** The clear-and-go-home block of lines 323-328 and 333-338. *)
Definition clearAndRedirectHome : M unit :=
  Cleanup "gangway" ;;;
  Cleanup "gangway_id_token" ;;;
  Cleanup "gangway_refresh_token" ;;;
  http_Redirect "/" StatusTemporaryRedirect.

(** The texts of the two warnings of lines 357 and 367. *)
Definition emailClaimDeprecated : string :=
  "using the Email Claim config setting is deprecated. Gangway uses `UsernameClaim@ClusterName`. This field will be removed in a future version.".
Definition emptyClientSecret : string :=
  "Setting an empty Client Secret should only be done if you have no other option and is an inherent security risk.".

Definition generateInfo (E : Env) (r : Request) : M userInfo :=
  (* read in public ca.crt to output in commandline copy/paste commands *)
  let '(file, err) := os_Open E (config.ClusterCAPath (cfg E)) in
  whenErr err (fun e => log_Errorf ("Failed to open CA file. " +:+ e)) ;;;
  let '(caBytes, err) := ioutil_ReadAll file in
  whenErr err (fun e => log_Warningf ("Could not read CA file: " +:+ e)) ;;;
  (* load the session cookies *)
  sessionIDToken <~ try_ (Session_Get r "gangway_id_token")
    (fun _ => http_Error (StatusText StatusInternalServerError)
                StatusInternalServerError) ;;
  sessionRefreshToken <~ try_ (Session_Get r "gangway_refresh_token")
    (fun _ => http_Error (StatusText StatusInternalServerError)
                StatusInternalServerError) ;;
  idToken <~ try_string (index (sessions.Values sessionIDToken) "id_token")
    clearAndRedirectHome ;;
  refreshToken <~ try_string
    (index (sessions.Values sessionRefreshToken) "refresh_token")
    clearAndRedirectHome ;;
  claims <~ try_ (ParseToken E idToken (config.ClientSecret (cfg E)))
    (fun _ => http_Error "Could not parse JWT" StatusInternalServerError) ;;
  username <~ try_string (index claims (config.UsernameClaim (cfg E)))
    (http_Error "Could not parse Username claim" StatusInternalServerError) ;;
  let kubeCfgUser := Join [username; config.ClusterName (cfg E)] "@" in
  (if String.eqb (config.EmailClaim (cfg E)) "" then ret tt
   else log_Warningf emailClaimDeprecated) ;;;
  issuerURL <~ try_string (index claims "iss")
    (http_Error "Could not parse Issuer URL claim" StatusInternalServerError) ;;
  (if String.eqb (config.ClientSecret (cfg E)) ""
   then log_Warningf emptyClientSecret
   else ret tt) ;;;
  ret {| ClusterName := config.ClusterName (cfg E);
         Username := username;
         KubeCfgUser := kubeCfgUser;
         IDToken := idToken;
         RefreshToken := refreshToken;
         ClientID := config.ClientID (cfg E);
         ClientSecret := config.ClientSecret (cfg E);
         IssuerURL := issuerURL;
         APIServerURL := config.APIServerURL (cfg E);
         ClusterCA := string_of_bytes caBytes;
         HTTPPath := config.HTTPPath (cfg E);
         Clusters := config.Clusters (cfg E);
         Email := "" |}.

(** ** [kubeConfigHandler] *)

Definition kubeConfigHandler (E : Env) (r : Request) : M unit :=
  info <~ generateInfo E r ;;
  let '(_, kcfg) := generateKubeConfig info in
  match yaml_Marshal E kcfg with
  | Err err =>
      log_Errorf ("Error creating kubeconfig - " +:+ err) ;;;
      http_Error "Error creating kubeconfig" StatusInternalServerError ;;;
      stop
  | Ok d =>
      (* tell the browser the returned content should be downloaded *)
      Header_Add "Content-Disposition" "Attachment" ;;;
      w_Write d
  end.

(** ** The session gate, login and logout *)

(** [loginRequired(next)].  [cfg.GetRootPathPrefix()] is a method of the
    configuration package; the string it returns is the parameter
    [rootPathPrefix]. *)
Definition loginRequired (rootPathPrefix : string) (next : Request -> M unit)
    (r : Request) : M unit :=
  session <~ try_ (Session_Get r "gangway_id_token")
    (fun _ => http_Redirect rootPathPrefix StatusTemporaryRedirect) ;;
  if bool_decide (index (sessions.Values session) "id_token" = INil) then
    http_Redirect rootPathPrefix StatusTemporaryRedirect ;;; stop
  else
    next r.

(** What [loginHandler] calls into besides the session store: the secure
    random source filling a buffer, base64's [EncodeToString], the
    configured audience and the OAuth2 client's [AuthCodeURL]. *)
Record Login := {
  rand_Read : bytes -> bytes;
  EncodeToString : bytes -> string;
  Audience : string;
  AuthCodeURL : string -> string -> string;
}.

(** [make([]byte, n)] *)
Definition make_bytes (n : nat) : bytes := repeat "000"%byte n.

Definition loginHandler (E : Env) (L : Login) (r : Request) : M unit :=
  let b := make_bytes 32 in
  let b := rand_Read L b in
  let state := EncodeToString L b in
  session <~ try_ (Session_Get r "gangway")
    (fun err => log_Errorf ("Got an error in login: " +:+ err) ;;;
                http_Error err StatusInternalServerError) ;;
  let session := sessions.set_Value session "state" (IString state) in
  res <~ Session_Save E session ;;
  try_ res (fun err => http_Error err StatusInternalServerError) ;;;
  let audience := Audience L in
  let url := AuthCodeURL L state audience in
  http_Redirect url StatusTemporaryRedirect.

Definition logoutHandler (rootPathPrefix : string) (r : Request) : M unit :=
  Cleanup "gangway" ;;;
  Cleanup "gangway_id_token" ;;;
  Cleanup "gangway_refresh_token" ;;;
  http_Redirect rootPathPrefix StatusTemporaryRedirect.

(** ** Template pages *)

Definition templatesBase : string := "/templates".

(** [homeInfo] *)
Module home.
Record homeInfo := {
  HTTPPath : string;
}.
End home.

(** The [data interface{}] handed to a template. *)
Inductive TemplateData :=
| HomeData (d : home.homeInfo)
| InfoData (d : userInfo).

(** A parsed [*template.Template]: its name and its text. *)
Record Template := {
  tmpl_Name : string;
  tmpl_Text : string;
}.

(** What [serveTemplate] calls into: the configured custom template
    directory, [filepath.Join], [ioutil.ReadFile], the embedded assets
    ([FSByte(false, path)]), [Parse] with the pair it returns, and
    [ExecuteTemplate] writing to the response. *)
Record Templates := {
  CustomHTMLTemplatesDir : string;
  filepath_Join : string -> string -> string;
  ioutil_ReadFile : string -> result bytes;
  FSByte : string -> result bytes;
  Parse : string -> string -> option Template * option string;
  ExecuteTemplate : option Template -> string -> TemplateData -> M unit;
}.

(** A call of a function that has no result: its [return] ends the callee
    and the caller carries on. *)
Definition call {A} (body : M A) : M unit :=
  fun s => (Some tt, snd (body s)).

Definition serveTemplate (T : Templates) (tmplFile : string)
    (data : TemplateData) : M unit :=
  call (
    (* Use custom templates if provided *)
    let '(templatePath, found) :=
      if negb (String.eqb (CustomHTMLTemplatesDir T) "") then
        let templatePath := filepath_Join T (CustomHTMLTemplatesDir T) tmplFile in
        (templatePath, ioutil_ReadFile T templatePath)
      else
        let templatePath := filepath_Join T templatesBase tmplFile in
        (templatePath, FSByte T templatePath) in
    templateData <~ try_ found
      (fun err =>
         log_Errorf ("Failed to find template asset: " +:+ tmplFile
                     +:+ " at path: " +:+ templatePath) ;;;
         http_Error err StatusInternalServerError) ;;
    let '(tmpl, err) := Parse T tmplFile (string_of_bytes templateData) in
    whenErr err
      (fun e => log_Errorf ("Failed to parse template: " +:+ e) ;;;
                http_Error e StatusInternalServerError) ;;;
    ExecuteTemplate T tmpl tmplFile data).

Definition homeHandler (E : Env) (T : Templates) (r : Request) : M unit :=
  let data := {| home.HTTPPath := config.HTTPPath (cfg E) |} in
  serveTemplate T "home.tmpl" (HomeData data).

Definition commandlineHandler (E : Env) (T : Templates) (r : Request) : M unit :=
  info <~ generateInfo E r ;;
  serveTemplate T "commandline.tmpl" (InfoData info).

(** * Vocabulary of the properties *)

(** ** Documents *)

(** The context entry the loop appends for one cluster entry. *)
Definition contextFor (cfg : userInfo) (nc : clientcmdapi.NamedCluster)
  : clientcmdapi.NamedContext :=
  {| clientcmdapi.context_Name := clientcmdapi.cluster_Name nc;
     clientcmdapi.context_Context :=
       {| clientcmdapi.ctx_Cluster := clientcmdapi.cluster_Name nc;
          clientcmdapi.ctx_AuthInfo := Email cfg;
          clientcmdapi.ctx_Namespace := "" |} |}.

(** The CA bytes carried by a cluster entry. *)
Definition caOf (nc : clientcmdapi.NamedCluster) : bytes :=
  clientcmdapi.CertificateAuthorityData (clientcmdapi.cluster_Cluster nc).

(** The document of a record, and the record as the call leaves it. *)
Definition documentOf (cfg : userInfo) : clientcmdapi.Config :=
  snd (generateKubeConfig cfg).
Definition recordAfter (cfg : userInfo) : userInfo :=
  fst (generateKubeConfig cfg).

(** The call leaves the record it is given as it was. *)
Definition leavesRecordUnchanged (cfg : userInfo) : Prop :=
  recordAfter cfg = cfg.

(** Every cluster entry of the document carries the record's CA bytes. *)
Definition everyClusterCarriesCA (cfg : userInfo) : Prop :=
  Forall (fun nc => caOf nc = bytes_of_string (ClusterCA cfg))
         (clientcmdapi.Clusters (documentOf cfg)).

(** Every context names, as its auth-info, the sole auth-info entry of the
    document. *)
Definition contextsBindAuthInfo (cfg : userInfo) : Prop :=
  Forall (fun c =>
            [clientcmdapi.ctx_AuthInfo (clientcmdapi.context_Context c)]
            = map clientcmdapi.authinfo_Name
                (clientcmdapi.AuthInfos (documentOf cfg)))
         (clientcmdapi.Contexts (documentOf cfg)).

(** ** Requests and sessions *)

Definition primary : string := "gangway".
Definition idTokenPartition : string := "gangway_id_token".
Definition refreshTokenPartition : string := "gangway_refresh_token".

(** What a handler returns on a request ([None]: it returned early, or
    with the nil record), and the state it leaves. *)
Definition returned {A} (h : Request -> M A) (r : Request) : option A :=
  fst (h r (start r)).
Definition after {A} (h : Request -> M A) (r : Request) : HState :=
  snd (h r (start r)).

(** The session store can read the named partition of the request: the
    cookie is absent or decodes. *)
Definition readable (r : Request) (name : string) : bool :=
  match Cookies r !! name with
  | Some (sessions.Corrupt _) => false
  | _ => true
  end.

(** The three partitions [callbackHandler] loads are all readable. *)
Definition loaded (r : Request) : bool :=
  readable r "gangway" && readable r "gangway_id_token"
  && readable r "gangway_refresh_token".

(** The values the request holds in a partition (none when absent). *)
Definition valuesOf (r : Request) (name : string) : gmap string iface :=
  match Cookies r !! name with
  | Some (sessions.Valid v) => v
  | _ => ∅
  end.

(** A jar with the three partitions cleared. *)
Definition cleared (j : gmap string sessions.Cookie) : gmap string sessions.Cookie :=
  delete refreshTokenPartition (delete idTokenPartition (delete primary j)).

(** The partitions as [callbackHandler] writes them for a token. *)
Definition idTokenValues (r : Request) (token : oauth2.Token) : gmap string iface :=
  <["id_token" := oauth2.Extra token "id_token"]> (valuesOf r idTokenPartition).
Definition refreshTokenValues (r : Request) (token : oauth2.Token) : gmap string iface :=
  <["refresh_token" := IString (oauth2.RefreshToken token)]>
    (valuesOf r refreshTokenPartition).

(** None of the three saves a successful callback performs is refused by
    the session store. *)
Definition savesSucceed (E : Env) (r : Request) (token : oauth2.Token) : Prop :=
  Save_err E primary (valuesOf r primary) = None
  /\ Save_err E idTokenPartition (idTokenValues r token) = None
  /\ Save_err E refreshTokenPartition (refreshTokenValues r token) = None.

(** A request whose state differs from the stored one is answered 403. *)
Definition mismatchAnswers403 (E : Env) (r : Request) : Prop :=
  index (valuesOf r primary) "state" <> IString (Query_Get r "state") ->
  statusOf (resp (after (callbackHandler E) r)) = Some 403.

(** A request whose state matches and whose code is exchanged is answered
    303. *)
Definition matchAndExchangeAnswer303 (E : Env) (r : Request) : Prop :=
  index (valuesOf r primary) "state" = IString (Query_Get r "state") ->
  (exists token, Exchange E (Query_Get r "code") = Ok token) ->
  statusOf (resp (after (callbackHandler E) r)) = Some 303.

(** The bytes [generateInfo] ends up with for the CA file. *)
Definition caRead (E : Env) : bytes :=
  fst (ioutil_ReadAll (fst (os_Open E (config.ClusterCAPath (cfg E))))).

(** What [generateInfo] logs about the CA file. *)
Definition caLogs (E : Env) : list LogEntry :=
  match fs E (config.ClusterCAPath (cfg E)) with
  | Missing e =>
      [LogError ("Failed to open CA file. " +:+ e);
       LogWarning ("Could not read CA file: " +:+ "invalid argument")]
  | Present _ (Some e) => [LogWarning ("Could not read CA file: " +:+ e)]
  | Present _ None => []
  end.

(** What [generateInfo] logs about the configuration. *)
Definition configLogs (E : Env) : list LogEntry :=
  (if String.eqb (config.EmailClaim (cfg E)) "" then []
   else [LogWarning emailClaimDeprecated])
  ++ (if String.eqb (config.ClientSecret (cfg E)) ""
      then [LogWarning emptyClientSecret] else []).

(** Opening or reading the configured CA file fails. *)
Definition caFails (E : Env) : Prop :=
  match fs E (config.ClusterCAPath (cfg E)) with
  | Missing _ => True
  | Present _ (Some _) => True
  | Present _ None => False
  end.

(** The request carries a session [generateInfo] accepts: both token
    partitions are readable and hold strings, the ID token parses, and its
    claims hold the username claim and the issuer as strings. *)
Record authenticated (E : Env) (r : Request)
    (idToken refreshToken username issuer : string) : Prop := {
  auth_id_readable : readable r idTokenPartition = true;
  auth_refresh_readable : readable r refreshTokenPartition = true;
  auth_id_token :
    index (valuesOf r idTokenPartition) "id_token" = IString idToken;
  auth_refresh_token :
    index (valuesOf r refreshTokenPartition) "refresh_token"
    = IString refreshToken;
  auth_claims : exists claims,
    ParseToken E idToken (config.ClientSecret (cfg E)) = Ok claims
    /\ index claims (config.UsernameClaim (cfg E)) = IString username
    /\ index claims "iss" = IString issuer;
}.

(** The record [generateInfo] builds for an authenticated request. *)
Definition infoFor (E : Env) (idToken refreshToken username issuer : string)
  : userInfo :=
  {| ClusterName := config.ClusterName (cfg E);
     Username := username;
     KubeCfgUser := username +:+ "@" +:+ config.ClusterName (cfg E);
     IDToken := idToken;
     RefreshToken := refreshToken;
     ClientID := config.ClientID (cfg E);
     ClientSecret := config.ClientSecret (cfg E);
     IssuerURL := issuer;
     APIServerURL := config.APIServerURL (cfg E);
     ClusterCA := string_of_bytes (caRead E);
     HTTPPath := config.HTTPPath (cfg E);
     Clusters := config.Clusters (cfg E);
     Email := "" |}.

(** For an authenticated request, a failing CA file leaves the record
    with empty CA bytes. *)
Definition caFailureGivesEmptyCA (E : Env) (r : Request) : Prop :=
  (exists idToken refreshToken username issuer,
      authenticated E r idToken refreshToken username issuer) ->
  caFails E ->
  exists info, returned (generateInfo E) r = Some info /\ ClusterCA info = "".

(** ** Vocabulary of the further properties *)

(** A cookie name other than the three session partitions. *)
Definition outside (name : string) : Prop :=
  name <> primary /\ name <> idTokenPartition /\ name <> refreshTokenPartition.

(** The state [loginHandler] issues. *)
Definition issuedState (L : Login) : string :=
  EncodeToString L (rand_Read L (make_bytes 32)).

(** The primary partition as [loginHandler] writes it. *)
Definition loginValues (L : Login) (r : Request) : gmap string iface :=
  <["state" := IString (issuedState L)]> (valuesOf r primary).

(** The OIDC settings of the document's auth-info entries. *)
Definition providerConfigs (k : clientcmdapi.Config) : list (gmap string string) :=
  omap (fun a => clientcmdapi.provider_Config
                   <$> clientcmdapi.AuthProvider (clientcmdapi.authinfo_AuthInfo a))
       (clientcmdapi.AuthInfos k).

(** The session gate lets the request through. *)
Definition gateOpen (r : Request) : bool :=
  readable r idTokenPartition
  && negb (bool_decide (index (valuesOf r idTokenPartition) "id_token" = INil)).

(** The path [serveTemplate] loads a template from, and what it finds
    there. *)
Definition templatePathOf (T : Templates) (tmplFile : string) : string :=
  if String.eqb (CustomHTMLTemplatesDir T) ""
  then filepath_Join T templatesBase tmplFile
  else filepath_Join T (CustomHTMLTemplatesDir T) tmplFile.
Definition templateFound (T : Templates) (tmplFile : string) : result bytes :=
  if String.eqb (CustomHTMLTemplatesDir T) ""
  then FSByte T (templatePathOf T tmplFile)
  else ioutil_ReadFile T (templatePathOf T tmplFile).

(** * Concrete inputs *)

Module Sample.

(** An additional cluster as an operator configures it: a name and a
    server, no CA data of its own. *)
Definition devCluster : clientcmdapi.NamedCluster :=
  {| clientcmdapi.cluster_Name := "dev";
     clientcmdapi.cluster_Cluster :=
       {| clientcmdapi.Server := "https://dev.example.com:6443";
          clientcmdapi.InsecureSkipTLSVerify := false;
          clientcmdapi.CertificateAuthority := "";
          clientcmdapi.CertificateAuthorityData := [] |} |}.

Definition gangwayConfig : config.Config :=
  {| config.HTTPPath := "/gangway";
     config.ClusterCAPath := "/etc/gangway/ca.crt";
     config.ClusterName := "prod";
     config.ClientID := "gangway";
     config.ClientSecret := "s3cret";
     config.UsernameClaim := "sub";
     config.EmailClaim := "";
     config.APIServerURL := "https://prod.example.com:6443";
     config.Clusters := [devCluster] |}.

Definition claims : gmap string iface :=
  <["sub" := IString "alice"]>
    (<["iss" := IString "https://idp.example.com"]> ∅).

(** A provider answer with an ID token, and one without. *)
Definition token : oauth2.Token :=
  {| oauth2.RefreshToken := "R";
     oauth2.raw := <["id_token" := IString "T"]> ∅ |}.
Definition tokenWithoutID : oauth2.Token :=
  {| oauth2.RefreshToken := "R"; oauth2.raw := ∅ |}.

(** An environment in which the CA file is in state [ca], the provider
    answers the code C1 with [tok], and marshalling gives [yaml]. *)
Definition env (ca : FileState) (tok : oauth2.Token) (yaml : result bytes) : Env :=
  {| cfg := gangwayConfig;
     fs := fun path =>
             if String.eqb path "/etc/gangway/ca.crt" then ca
             else Missing "no such file or directory";
     Exchange := fun code =>
             if String.eqb code "C1" then Ok tok else Err "invalid_grant";
     ParseToken := fun idToken _ =>
             if String.eqb idToken "T" then Ok claims
             else Err "token contains an invalid number of segments";
     yaml_Marshal := fun _ => yaml;
     Save_err := fun _ _ => None |}.

Definition caFile : FileState := Present (bytes_of_string "PEM") None.
Definition yaml : result bytes := Ok (bytes_of_string "kind: Config").

Definition E : Env := env caFile token yaml.

(** The callback of a login that stored the state S1. *)
Definition callback (state : string) : Request :=
  {| Query := <["state" := [state]]> (<["code" := ["C1"]]> ∅);
     Cookies := <["gangway" := sessions.Valid (<["state" := IString "S1"]> ∅)]> ∅ |}.

(** A request after a completed login. *)
Definition loggedIn : Request :=
  {| Query := ∅;
     Cookies :=
       <["gangway" := sessions.Valid (<["state" := IString "S1"]> ∅)]>
       (<["gangway_id_token" := sessions.Valid (<["id_token" := IString "T"]> ∅)]>
       (<["gangway_refresh_token" :=
            sessions.Valid (<["refresh_token" := IString "R"]> ∅)]> ∅)) |}.

(** A request that carries no cookie at all. *)
Definition anonymous : Request := {| Query := ∅; Cookies := ∅ |}.

(** The record [generateInfo] builds for [loggedIn] in [E]. *)
Definition info : userInfo :=
  {| ClusterName := "prod";
     Username := "alice";
     KubeCfgUser := "alice@prod";
     IDToken := "T";
     RefreshToken := "R";
     ClientID := "gangway";
     ClientSecret := "s3cret";
     IssuerURL := "https://idp.example.com";
     APIServerURL := "https://prod.example.com:6443";
     ClusterCA := "PEM";
     HTTPPath := "/gangway";
     Clusters := [devCluster];
     Email := "" |}.

(** A CA file whose read breaks off after ten bytes, and a path at
    which no file can be opened. *)
Definition partialCA : FileState :=
  Present (bytes_of_string "-----BEGIN")
          (Some "read /etc/gangway/ca.crt: input/output error").
Definition missingCA : FileState :=
  Missing "open /etc/gangway/ca.crt: no such file or directory".

Definition yamlError : result bytes := Err "json: unsupported value".

(** The environment [E] with a session store that refuses to save the
    id-token partition (the encoded cookie exceeds the size limit). *)
Definition saveRefused : Env :=
  {| cfg := gangwayConfig;
     fs := fs E;
     Exchange := Exchange E;
     ParseToken := ParseToken E;
     yaml_Marshal := yaml_Marshal E;
     Save_err := fun name _ =>
       if String.eqb name "gangway_id_token"
       then Some "securecookie: the value is too long"
       else None |}.

(** A callback with a state other than the stored S1 and an id-token
    cookie that does not decode. *)
Definition tampered : Request :=
  {| Query := <["state" := ["S2"]]> (<["code" := ["C1"]]> ∅);
     Cookies :=
       <["gangway" := sessions.Valid (<["state" := IString "S1"]> ∅)]>
       (<["gangway_id_token" :=
            sessions.Corrupt "securecookie: the value is not valid"]> ∅) |}.

(** A callback with the stored state S1 and a code of the caller's
    choice. *)
Definition callbackWith (code : string) : Request :=
  {| Query := <["state" := ["S1"]]> (<["code" := [code]]> ∅);
     Cookies := <["gangway" := sessions.Valid (<["state" := IString "S1"]> ∅)]> ∅ |}.


(** A session whose ID token no longer parses, and one whose id_token is
    a number. *)
Definition staleToken : Request :=
  {| Query := ∅;
     Cookies :=
       <["gangway_id_token" := sessions.Valid (<["id_token" := IString "old"]> ∅)]>
       (<["gangway_refresh_token" :=
            sessions.Valid (<["refresh_token" := IString "R"]> ∅)]> ∅) |}.
Definition numberToken : Request :=
  {| Query := ∅;
     Cookies :=
       <["gangway_id_token" := sessions.Valid (<["id_token" := INumber 7]> ∅)]>
       (<["gangway_refresh_token" :=
            sessions.Valid (<["refresh_token" := IString "R"]> ∅)]> ∅) |}.

(** A request whose refresh-token cookie does not decode. *)
Definition brokenRefresh : Request :=
  {| Query := ∅;
     Cookies :=
       <["gangway_id_token" := sessions.Valid (<["id_token" := IString "T"]> ∅)]>
       (<["gangway_refresh_token" :=
            sessions.Corrupt "securecookie: the value is not valid"]> ∅) |}.

(** An environment whose ID tokens parse to the claims [c]. *)
Definition envWithClaims (c : gmap string iface) : Env :=
  {| cfg := gangwayConfig;
     fs := fs E;
     Exchange := Exchange E;
     ParseToken := fun _ _ => Ok c;
     yaml_Marshal := yaml_Marshal E;
     Save_err := Save_err E |}.

(** Template collaborators: the custom directory [dir], with loading and
    parsing as given; executing a template writes its text. *)
Definition templates (dir : string) (custom embedded : result bytes)
    (parsed : option Template * option string) : Templates :=
  {| CustomHTMLTemplatesDir := dir;
     filepath_Join := fun a b => a +:+ "/" +:+ b;
     ioutil_ReadFile := fun _ => custom;
     FSByte := fun _ => embedded;
     Parse := fun _ _ => parsed;
     ExecuteTemplate := fun tmpl _ _ =>
       match tmpl with
       | Some t => w_Write (bytes_of_string (tmpl_Text t))
       | None => stop
       end |}.

(** The request a browser sends once the jar [j] is its cookie jar. *)
Definition carrying (j : gmap string sessions.Cookie) : Request :=
  {| Query := ∅; Cookies := j |}.

End Sample.

(** * Proof automation *)

(** Unfolds the monadic plumbing of a handler. *)
Ltac run :=
  unfold bind, ret, stop, try_, try_string, whenErr, http_Error, http_Redirect,
    Header_Add, w_Write, log_Errorf, log_Warningf, Cleanup, o2token_Exchange,
    Session_Save, clearAndRedirectHome; simpl.

(** Case analysis on the tests [callbackHandler] makes once its sessions
    are loaded. *)
Ltac callback_cases :=
  repeat match goal with
    | |- context [bool_decide ?P] => destruct (bool_decide P) eqn:?; simpl
    | |- context [match Exchange ?E ?c with _ => _ end] =>
        destruct (Exchange E c) eqn:?; simpl
    | |- context [match Save_err ?E ?n ?v with _ => _ end] =>
        destruct (Save_err E n v) eqn:?; simpl
    end.

(** Case analysis on the next test a handler makes. *)
Ltac next_test :=
  match goal with
  | |- context [match as_string ?x with _ => _ end] =>
      destruct x eqn:?; simpl
  | |- context [match ?x with Ok _ => _ | Err _ => _ end] =>
      destruct x eqn:?; simpl
  | |- context [if String.eqb ?a ?b then _ else _] =>
      destruct (String.eqb a b) eqn:?; simpl
  end.


Example sample_generateInfo :
  fst (generateInfo Sample.E Sample.loggedIn (start Sample.loggedIn)) = Some Sample.info.
Proof. vm_compute. reflexivity. Qed.

Example sample_callback :
  resp (snd (callbackHandler Sample.E (Sample.callback "S1") (start (Sample.callback "S1"))))
  = [HttpRedirect "/gangway/commandline" 303].
Proof. vm_compute. reflexivity. Qed.

Example sample_callback2 :
  resp (snd (callbackHandler Sample.E (Sample.callback "S2") (start (Sample.callback "S2"))))
  = [HttpError "Forbidden" 403].
Proof. vm_compute. reflexivity. Qed.

(** * Properties *)

(** ** Helper lemmas on [generateKubeConfig] *)

Lemma rangeClusters_spec cfg elems contexts :
  rangeClusters cfg elems contexts = contexts ++ map (contextFor cfg) elems.
Proof.
  revert contexts.
  induction elems as [|nc rest IH]; intros contexts; simpl.
  - by rewrite app_nil_r.
  - rewrite IH. by rewrite <- app_assoc.
Qed.

(** The cluster entries of the document are the record's clusters as they
    were configured, followed by the primary cluster. *)
Lemma generateKubeConfig_Clusters cfg :
  clientcmdapi.Clusters (documentOf cfg) = Clusters cfg ++ [primaryCluster cfg].
Proof. reflexivity. Qed.

(** One context per cluster entry, in the same order and under the same
    name. *)
Lemma generateKubeConfig_Contexts cfg :
  clientcmdapi.Contexts (documentOf cfg)
  = map (contextFor cfg) (clientcmdapi.Clusters (documentOf cfg)).
Proof.
  unfold documentOf, generateKubeConfig. simpl.
  by rewrite rangeClusters_spec.
Qed.

Lemma generateKubeConfig_Contexts_length cfg :
  length (clientcmdapi.Contexts (documentOf cfg))
  = length (clientcmdapi.Clusters (documentOf cfg)).
Proof. rewrite generateKubeConfig_Contexts. apply length_map. Qed.



(** The call leaves the record with the primary cluster appended to its
    cluster list and every other field as it was. *)
Lemma generateKubeConfig_record cfg :
  recordAfter cfg = set_Clusters cfg (Clusters cfg ++ [primaryCluster cfg]).
Proof. reflexivity. Qed.

(** ** Helper lemmas on strings *)

Lemma Join_two a b sep : Join [a; b] sep = a +:+ sep +:+ b.
Proof. reflexivity. Qed.

Lemma count_char_app c s t :
  count_char c (s +:+ t) = count_char c s + count_char c t.
Proof.
  induction s as [|a s IH]; simpl; [done|].
  rewrite IH. lia.
Qed.

Lemma bytes_of_string_of_bytes b : bytes_of_string (string_of_bytes b) = b.
Proof. apply list_byte_of_string_of_list_byte. Qed.

(** ** Claims on the generated document *)

(** C2 (code defect, evaluated at the failing input).  With one additional
    cluster configured without CA data and the CA file holding the bytes
    PEM, the document has two cluster entries; the primary one carries PEM
    and the additional one carries no CA bytes at all: the assignment in
    the loop reaches the loop variable, not the slice element, so the CA
    bytes are not on every cluster entry. *)
Theorem generateKubeConfig_ca_only_on_primary :
  clientcmdapi.Clusters (documentOf Sample.info)
  = [Sample.devCluster; primaryCluster Sample.info]
  /\ caOf (primaryCluster Sample.info) = bytes_of_string (ClusterCA Sample.info)
  /\ caOf Sample.devCluster = []
  /\ bytes_of_string (ClusterCA Sample.info) <> []
  /\ ~ everyClusterCarriesCA Sample.info.
Proof.
  repeat split; try reflexivity.
  - discriminate.
  - unfold everyClusterCarriesCA. rewrite generateKubeConfig_Clusters.
    intros Hall. apply Forall_inv in Hall. vm_compute in Hall. discriminate.
Qed.

(** C3 (code defect, evaluated at the failing input).  For the record of
    user alice on cluster prod, with one additional cluster, the document
    has one context per cluster entry, but each context names the empty
    string as its auth-info (the record's [Email]) while the sole auth-info
    entry is named alice@prod: no context is bound to the auth-info
    entry. *)
Theorem generateKubeConfig_contexts_name_Email :
  length (clientcmdapi.Contexts (documentOf Sample.info))
  = length (clientcmdapi.Clusters (documentOf Sample.info))
  /\ map (fun c => clientcmdapi.ctx_AuthInfo (clientcmdapi.context_Context c))
         (clientcmdapi.Contexts (documentOf Sample.info)) = [""; ""]
  /\ map clientcmdapi.authinfo_Name
         (clientcmdapi.AuthInfos (documentOf Sample.info)) = ["alice@prod"]
  /\ ~ contextsBindAuthInfo Sample.info.
Proof.
  repeat split; try reflexivity.
  unfold contextsBindAuthInfo. intros Hall.
  rewrite generateKubeConfig_Contexts, generateKubeConfig_Clusters in Hall.
  apply Forall_inv in Hall. vm_compute in Hall. discriminate.
Qed.

(** C6.  Whatever the record and however many additional clusters it
    lists, the document has exactly one auth-info entry and its current
    context is the primary cluster's name. *)
Theorem generateKubeConfig_one_authinfo_current_context (cfg : userInfo) :
  length (clientcmdapi.AuthInfos (documentOf cfg)) = 1
  /\ clientcmdapi.CurrentContext (documentOf cfg) = ClusterName cfg
  /\ clientcmdapi.CurrentContext (documentOf cfg)
     = clientcmdapi.cluster_Name (primaryCluster cfg).
Proof. repeat split. Qed.

(** ** Helper lemmas on the handlers *)

Lemma Session_Get_readable r name :
  readable r name = true ->
  Session_Get r name
  = Ok {| sessions.Name := name; sessions.Values := valuesOf r name |}.
Proof.
  unfold readable, Session_Get, valuesOf.
  destruct (Cookies r !! name) as [[v|e]|]; intros H; try reflexivity.
  discriminate.
Qed.

(** A state mismatch ends the callback with 403 and nothing else. *)
Lemma callbackHandler_forbidden E r s :
  readable r primary = true ->
  readable r idTokenPartition = true ->
  readable r refreshTokenPartition = true ->
  index (valuesOf r primary) "state" <> IString (Query_Get r "state") ->
  callbackHandler E r s
  = (None, {| jar := jar s;
              resp := resp s ++ [HttpError "Forbidden" StatusForbidden];
              logs := logs s; exchanges := exchanges s |}).
Proof.
  intros H1 H2 H3 Hne. unfold callbackHandler.
  unfold primary, idTokenPartition, refreshTokenPartition in *.
  rewrite (Session_Get_readable _ _ H1), (Session_Get_readable _ _ H2),
    (Session_Get_readable _ _ H3).
  run. rewrite bool_decide_eq_true_2 by congruence. reflexivity.
Qed.

(** The state of a callback that went through. *)
Lemma callbackHandler_success E r s token :
  readable r primary = true ->
  readable r idTokenPartition = true ->
  readable r refreshTokenPartition = true ->
  index (valuesOf r primary) "state" = IString (Query_Get r "state") ->
  Exchange E (Query_Get r "code") = Ok token ->
  savesSucceed E r token ->
  callbackHandler E r s
  = (Some tt,
     {| jar := <[refreshTokenPartition := sessions.Valid (refreshTokenValues r token)]>
               (<[idTokenPartition := sessions.Valid (idTokenValues r token)]>
               (<[primary := sessions.Valid (valuesOf r primary)]> (jar s)));
        resp := resp s ++ [HttpRedirect (config.HTTPPath (cfg E) +:+ "/commandline")
                             StatusSeeOther];
        logs := logs s;
        exchanges := exchanges s ++ [Query_Get r "code"] |}).
Proof.
  intros H1 H2 H3 Hst Hex (Hs1 & Hs2 & Hs3). unfold callbackHandler.
  unfold idTokenValues, refreshTokenValues in *.
  unfold primary, idTokenPartition, refreshTokenPartition in *.
  rewrite (Session_Get_readable _ _ H1), (Session_Get_readable _ _ H2),
    (Session_Get_readable _ _ H3).
  run. rewrite bool_decide_eq_false_2 by (rewrite Hst; tauto).
  rewrite Hex. simpl.
  rewrite Hs1. simpl. rewrite Hs2. simpl. rewrite Hs3. reflexivity.
Qed.

(** [generateInfo] on an authenticated request: the record, and a state
    in which only the log has grown. *)
Lemma generateInfo_authenticated E r s idToken refreshToken username issuer :
  authenticated E r idToken refreshToken username issuer ->
  generateInfo E r s
  = (Some (infoFor E idToken refreshToken username issuer),
     {| jar := jar s; resp := resp s;
        logs := logs s ++ caLogs E ++ configLogs E;
        exchanges := exchanges s |}).
Proof.
  intros [H1 H2 Hid Href (claims & Hparse & Huser & Hiss)].
  destruct s as [j rs lg ex].
  unfold generateInfo, infoFor, caRead, caLogs, configLogs, os_Open.
  unfold idTokenPartition, refreshTokenPartition in *.
  rewrite (Session_Get_readable _ _ H1), (Session_Get_readable _ _ H2).
  destruct (fs E (config.ClusterCAPath (cfg E))) as [e|data [e|]];
    run; rewrite Hid; simpl; rewrite Href; simpl; rewrite Hparse; simpl;
    rewrite Huser; simpl; rewrite Hiss; simpl;
    destruct (String.eqb (config.EmailClaim (cfg E)) "");
    destruct (String.eqb (config.ClientSecret (cfg E)) ""); simpl;
    rewrite <- ?app_assoc, ?app_nil_r; reflexivity.
Qed.

(** [generateInfo] on a request whose ID token or refresh token is not a
    string: the three partitions are cleared, the response is the redirect
    to the site root, and no record comes back. *)
Lemma generateInfo_unauthenticated E r s :
  readable r idTokenPartition = true ->
  readable r refreshTokenPartition = true ->
  as_string (index (valuesOf r idTokenPartition) "id_token") = None
  \/ as_string (index (valuesOf r refreshTokenPartition) "refresh_token") = None ->
  generateInfo E r s
  = (None,
     {| jar := cleared (jar s);
        resp := resp s ++ [HttpRedirect "/" StatusTemporaryRedirect];
        logs := logs s ++ caLogs E;
        exchanges := exchanges s |}).
Proof.
  intros H1 H2 Hno.
  unfold generateInfo, caLogs, os_Open, cleared.
  unfold primary, idTokenPartition, refreshTokenPartition in *.
  rewrite (Session_Get_readable _ _ H1), (Session_Get_readable _ _ H2).
  destruct (fs E (config.ClusterCAPath (cfg E))) as [e|data [e|]]; run;
    (destruct (as_string (index (valuesOf r "gangway_id_token") "id_token"))
       as [idToken|] eqn:Hid; simpl;
     [ destruct Hno as [Hno|Hno]; [discriminate|]; rewrite Hno; simpl | ]);
    rewrite <- ?app_assoc, ?app_nil_r; reflexivity.
Qed.

Lemma cleared_idemp j : cleared (cleared j) = cleared j.
Proof.
  unfold cleared. apply map_eq. intros k.
  rewrite !lookup_delete. repeat case_decide; reflexivity.
Qed.

Lemma cleared_lookup j name :
  name = primary \/ name = idTokenPartition \/ name = refreshTokenPartition ->
  cleared j !! name = None.
Proof.
  unfold cleared, primary, idTokenPartition, refreshTokenPartition.
  intros [-> | [-> | ->]]; rewrite !lookup_delete;
    repeat case_decide; try reflexivity; congruence.
Qed.

Lemma readable_valuesOf r name v :
  Session_Get r name = Ok v ->
  readable r name = true
  /\ v = {| sessions.Name := name; sessions.Values := valuesOf r name |}.
Proof.
  unfold Session_Get, readable, valuesOf.
  destruct (Cookies r !! name) as [[w|e]|]; intros H; simplify_eq; done.
Qed.

(** Whenever [generateInfo] returns a record, the request was
    authenticated and the record is the one built from its session. *)
Lemma generateInfo_Some_inv E r s info s' :
  generateInfo E r s = (Some info, s') ->
  exists idToken refreshToken username issuer,
    authenticated E r idToken refreshToken username issuer
    /\ info = infoFor E idToken refreshToken username issuer.
Proof.
  unfold generateInfo, infoFor, caRead.
  destruct (os_Open E (config.ClusterCAPath (cfg E))) as [file oerr]. simpl.
  destruct (ioutil_ReadAll file) as [caBytes rerr]. simpl.
  destruct (Session_Get r "gangway_id_token") as [sid|e1] eqn:G1;
    [ apply readable_valuesOf in G1 as [R1 ->] | ].
  2:{ destruct oerr, rerr; run; discriminate. }
  destruct (Session_Get r "gangway_refresh_token") as [sref|e2] eqn:G2;
    [ apply readable_valuesOf in G2 as [R2 ->] | ].
  2:{ destruct oerr, rerr; run; discriminate. }
  destruct oerr, rerr; run; repeat next_test; try discriminate;
    intros H; inversion H; subst; clear H;
    eexists _, _, _, _; (split; [ | reflexivity ]);
    (split; [ assumption | assumption | eassumption | eassumption | eauto ]).
Qed.

(** ** Claims on the callback *)

(** A partition that does not load ends the callback with 500 before the
    state is looked at. *)
Lemma callbackHandler_unloaded E r s :
  loaded r = false ->
  exists err,
    callbackHandler E r s
    = (None, {| jar := jar s;
                resp := resp s ++ [HttpError err StatusInternalServerError];
                logs := logs s; exchanges := exchanges s |}).
Proof.
  unfold loaded, readable, callbackHandler, Session_Get.
  destruct (Cookies r !! "gangway") as [[v1|e1]|];
    destruct (Cookies r !! "gangway_id_token") as [[v2|e2]|];
    destruct (Cookies r !! "gangway_refresh_token") as [[v3|e3]|];
    simpl; intros Hl; try discriminate Hl; eexists; run; reflexivity.
Qed.

Lemma loaded_readable r :
  loaded r = true ->
  readable r primary = true /\ readable r idTokenPartition = true
  /\ readable r refreshTokenPartition = true.
Proof.
  unfold loaded, primary, idTokenPartition, refreshTokenPartition.
  intros H. apply andb_prop in H as [H H3]. apply andb_prop in H as [H1 H2].
  auto.
Qed.

(** C1, a mismatch that is not answered 403.  The stored state is S1, the
    request brings S2, and the id-token cookie does not decode: the
    callback answers 500 at line 215, before it compares the states. *)
Lemma callbackHandler_mismatch_answered_500 :
  ~ mismatchAnswers403 Sample.E Sample.tampered.
Proof.
  unfold mismatchAnswers403. intros Hclaim.
  assert (Hne : index (valuesOf Sample.tampered primary) "state"
                <> IString (Query_Get Sample.tampered "state")).
  { intros H. vm_compute in H. discriminate H. }
  apply Hclaim in Hne. vm_compute in Hne. discriminate Hne.
Qed.

(** C1, as amended.  When the request's state is not the string stored
    under state in the primary partition (a stored value of another type
    and no stored value at all included), the callback returns early, no
    code is exchanged and the cookie jar is what the request carried.  The
    answer is 403 Forbidden when the three session partitions load, and
    500 when one of them does not. *)
Theorem callbackHandler_state_mismatch (E : Env) (r : Request) :
  index (valuesOf r primary) "state" <> IString (Query_Get r "state") ->
  returned (callbackHandler E) r = None
  /\ exchanges (after (callbackHandler E) r) = []
  /\ jar (after (callbackHandler E) r) = Cookies r
  /\ (loaded r = true ->
      resp (after (callbackHandler E) r) = [HttpError "Forbidden" StatusForbidden]
      /\ statusOf (resp (after (callbackHandler E) r)) = Some 403)
  /\ (loaded r = false ->
      exists err,
        resp (after (callbackHandler E) r)
        = [HttpError err StatusInternalServerError]).
Proof.
  intros Hne. unfold returned, after.
  destruct (loaded r) eqn:Hl.
  - apply loaded_readable in Hl as (H1 & H2 & H3).
    rewrite (callbackHandler_forbidden E r (start r) H1 H2 H3 Hne).
    repeat split. discriminate.
  - destruct (callbackHandler_unloaded E r (start r) Hl) as [err ->].
    repeat split; [ discriminate | discriminate | ].
    intros _. by exists err.
Qed.

Lemma callbackHandler_state_mismatch_witness :
  returned (callbackHandler Sample.E) (Sample.callback "S2") = None
  /\ exchanges (after (callbackHandler Sample.E) (Sample.callback "S2")) = []
  /\ jar (after (callbackHandler Sample.E) (Sample.callback "S2"))
     = Cookies (Sample.callback "S2")
  /\ (loaded (Sample.callback "S2") = true ->
      resp (after (callbackHandler Sample.E) (Sample.callback "S2"))
      = [HttpError "Forbidden" StatusForbidden]
      /\ statusOf (resp (after (callbackHandler Sample.E) (Sample.callback "S2")))
         = Some 403)
  /\ (loaded (Sample.callback "S2") = false ->
      exists err,
        resp (after (callbackHandler Sample.E) (Sample.callback "S2"))
        = [HttpError err StatusInternalServerError]).
Proof.
  apply (callbackHandler_state_mismatch Sample.E (Sample.callback "S2")).
  intros H. vm_compute in H. discriminate H.
Defined.

(** A callback that carries no cookie and no state at all is refused as
    well: the empty string is not the nil the empty session holds. *)
Example callbackHandler_no_session_forbidden :
  callbackHandler Sample.E Sample.anonymous (start Sample.anonymous)
  = (None, {| jar := ∅; resp := [HttpError "Forbidden" 403];
              logs := []; exchanges := [] |}).
Proof. vm_compute. reflexivity. Qed.

(** The three partitions in the jar a successful callback leaves. *)
Lemma callbackHandler_success_jar E r token :
  readable r primary = true ->
  readable r idTokenPartition = true ->
  readable r refreshTokenPartition = true ->
  index (valuesOf r primary) "state" = IString (Query_Get r "state") ->
  Exchange E (Query_Get r "code") = Ok token ->
  savesSucceed E r token ->
  jar (after (callbackHandler E) r) !! primary
  = Some (sessions.Valid (valuesOf r primary))
  /\ jar (after (callbackHandler E) r) !! idTokenPartition
     = Some (sessions.Valid (idTokenValues r token))
  /\ jar (after (callbackHandler E) r) !! refreshTokenPartition
     = Some (sessions.Valid (refreshTokenValues r token)).
Proof.
  intros H1 H2 H3 Hst Hex Hsave. unfold after.
  rewrite (callbackHandler_success E r (start r) token H1 H2 H3 Hst Hex Hsave).
  simpl. repeat split.
  - rewrite lookup_insert_ne by discriminate.
    rewrite lookup_insert_ne by discriminate.
    apply lookup_insert_eq.
  - rewrite lookup_insert_ne by discriminate. apply lookup_insert_eq.
  - apply lookup_insert_eq.
Qed.

Lemma idTokenValues_id_token r token :
  index (idTokenValues r token) "id_token" = oauth2.Extra token "id_token".
Proof. unfold idTokenValues, index. by rewrite lookup_insert_eq. Qed.

Lemma refreshTokenValues_refresh_token r token :
  index (refreshTokenValues r token) "refresh_token"
  = IString (oauth2.RefreshToken token).
Proof. unfold refreshTokenValues, index. by rewrite lookup_insert_eq. Qed.

(** C5, a matching state and a successful exchange not answered 303.
    The state matches and the provider answers the code, but the session
    store refuses to save the id-token partition: the callback answers 500
    at line 252. *)
Lemma callbackHandler_save_refused_answered_500 :
  ~ matchAndExchangeAnswer303 Sample.saveRefused (Sample.callback "S1").
Proof.
  unfold matchAndExchangeAnswer303. intros Hclaim.
  assert (H303 : statusOf (resp (after (callbackHandler Sample.saveRefused)
                                   (Sample.callback "S1"))) = Some 303).
  { apply Hclaim; [ reflexivity | exists Sample.token; reflexivity ]. }
  vm_compute in H303. discriminate H303.
Qed.

(** The state that callback leaves: the primary partition has been saved
    again with the values it had, the other two have not been saved, and
    the code has been spent. *)
Example callbackHandler_save_refused_state :
  callbackHandler Sample.saveRefused (Sample.callback "S1")
    (start (Sample.callback "S1"))
  = (None,
     {| jar := Cookies (Sample.callback "S1");
        resp := [HttpError "securecookie: the value is too long" 500];
        logs := [];
        exchanges := ["C1"] |}).
Proof. vm_compute. reflexivity. Qed.

(** C5, as amended.  When the three partitions load, the state matches,
    the code exchange succeeds and the session store accepts the three
    saves, the jar afterwards holds all three partitions (the id-token
    partition with the token's id_token, the refresh-token partition with
    its refresh token) and the response is a 303 redirect to the configured
    HTTP path followed by /commandline. *)
Theorem callbackHandler_success_populates (E : Env) (r : Request)
    (token : oauth2.Token) :
  readable r primary = true ->
  readable r idTokenPartition = true ->
  readable r refreshTokenPartition = true ->
  index (valuesOf r primary) "state" = IString (Query_Get r "state") ->
  Exchange E (Query_Get r "code") = Ok token ->
  savesSucceed E r token ->
  jar (after (callbackHandler E) r) !! primary
  = Some (sessions.Valid (valuesOf r primary))
  /\ jar (after (callbackHandler E) r) !! idTokenPartition
     = Some (sessions.Valid (idTokenValues r token))
  /\ index (idTokenValues r token) "id_token" = oauth2.Extra token "id_token"
  /\ jar (after (callbackHandler E) r) !! refreshTokenPartition
     = Some (sessions.Valid (refreshTokenValues r token))
  /\ index (refreshTokenValues r token) "refresh_token"
     = IString (oauth2.RefreshToken token)
  /\ resp (after (callbackHandler E) r)
     = [HttpRedirect (config.HTTPPath (cfg E) +:+ "/commandline") StatusSeeOther]
  /\ statusOf (resp (after (callbackHandler E) r)) = Some 303.
Proof.
  intros H1 H2 H3 Hst Hex Hsave.
  destruct (callbackHandler_success_jar E r token H1 H2 H3 Hst Hex Hsave)
    as (Hp & Hid & Href).
  rewrite Hp, Hid, Href, idTokenValues_id_token, refreshTokenValues_refresh_token.
  unfold after.
  rewrite (callbackHandler_success E r (start r) token H1 H2 H3 Hst Hex Hsave).
  repeat split.
Qed.

Lemma callbackHandler_success_populates_witness :
  jar (after (callbackHandler Sample.E) (Sample.callback "S1")) !! primary
  = Some (sessions.Valid (valuesOf (Sample.callback "S1") primary))
  /\ jar (after (callbackHandler Sample.E) (Sample.callback "S1")) !! idTokenPartition
     = Some (sessions.Valid (idTokenValues (Sample.callback "S1") Sample.token))
  /\ index (idTokenValues (Sample.callback "S1") Sample.token) "id_token"
     = oauth2.Extra Sample.token "id_token"
  /\ jar (after (callbackHandler Sample.E) (Sample.callback "S1"))
       !! refreshTokenPartition
     = Some (sessions.Valid (refreshTokenValues (Sample.callback "S1") Sample.token))
  /\ index (refreshTokenValues (Sample.callback "S1") Sample.token) "refresh_token"
     = IString (oauth2.RefreshToken Sample.token)
  /\ resp (after (callbackHandler Sample.E) (Sample.callback "S1"))
     = [HttpRedirect "/gangway/commandline" StatusSeeOther]
  /\ statusOf (resp (after (callbackHandler Sample.E) (Sample.callback "S1")))
     = Some 303.
Proof.
  apply (callbackHandler_success_populates Sample.E (Sample.callback "S1")
           Sample.token);
    [ reflexivity | reflexivity | reflexivity | reflexivity | reflexivity | ].
  repeat split.
Defined.

(** C10.  The callback stores the token's id_token extra field as it is,
    without a test on its presence or type.  In an otherwise successful
    callback (the partitions load, the state matches, the exchange answers,
    the saves are accepted) whose token has an id_token that is absent or
    not a string, the callback still completes with the 303 redirect and
    the id-token partition holds that non-string value; a later request
    that reaches [generateInfo] with this jar gets no record: the assembler
    clears the partitions and redirects to the site root. *)
Theorem callbackHandler_stores_id_token_unchecked (E : Env) (r : Request)
    (token : oauth2.Token) :
  readable r primary = true ->
  readable r idTokenPartition = true ->
  readable r refreshTokenPartition = true ->
  index (valuesOf r primary) "state" = IString (Query_Get r "state") ->
  Exchange E (Query_Get r "code") = Ok token ->
  savesSucceed E r token ->
  as_string (oauth2.Extra token "id_token") = None ->
  returned (callbackHandler E) r = Some tt
  /\ resp (after (callbackHandler E) r)
     = [HttpRedirect (config.HTTPPath (cfg E) +:+ "/commandline") StatusSeeOther]
  /\ (exists values,
        jar (after (callbackHandler E) r) !! idTokenPartition
        = Some (sessions.Valid values)
        /\ index values "id_token" = oauth2.Extra token "id_token")
  /\ forall r2 : Request,
       Cookies r2 = jar (after (callbackHandler E) r) ->
       returned (generateInfo E) r2 = None
       /\ resp (after (generateInfo E) r2)
          = [HttpRedirect "/" StatusTemporaryRedirect]
       /\ jar (after (generateInfo E) r2) = cleared (Cookies r2).
Proof.
  intros H1 H2 H3 Hst Hex Hsave Hnostr.
  destruct (callbackHandler_success_jar E r token H1 H2 H3 Hst Hex Hsave)
    as (_ & Hid & Href).
  split; [ | split; [ | split ] ].
  - unfold returned.
    by rewrite (callbackHandler_success E r (start r) token H1 H2 H3 Hst Hex Hsave).
  - unfold after.
    by rewrite (callbackHandler_success E r (start r) token H1 H2 H3 Hst Hex Hsave).
  - exists (idTokenValues r token). split; [ exact Hid | ].
    apply idTokenValues_id_token.
  - intros r2 Hjar. unfold returned, after.
    rewrite (generateInfo_unauthenticated E r2 (start r2)).
    + repeat split.
    + unfold readable. rewrite Hjar, Hid. reflexivity.
    + unfold readable. rewrite Hjar, Href. reflexivity.
    + left. unfold valuesOf. rewrite Hjar, Hid, idTokenValues_id_token.
      exact Hnostr.
Qed.

Lemma callbackHandler_stores_id_token_unchecked_witness :
  returned (callbackHandler (Sample.env Sample.caFile Sample.tokenWithoutID Sample.yaml))
    (Sample.callback "S1") = Some tt
  /\ resp (after (callbackHandler
                   (Sample.env Sample.caFile Sample.tokenWithoutID Sample.yaml))
            (Sample.callback "S1"))
     = [HttpRedirect "/gangway/commandline" StatusSeeOther]
  /\ (exists values,
        jar (after (callbackHandler
                      (Sample.env Sample.caFile Sample.tokenWithoutID Sample.yaml))
               (Sample.callback "S1")) !! idTokenPartition
        = Some (sessions.Valid values)
        /\ index values "id_token" = oauth2.Extra Sample.tokenWithoutID "id_token")
  /\ forall r2 : Request,
       Cookies r2
       = jar (after (callbackHandler
                       (Sample.env Sample.caFile Sample.tokenWithoutID Sample.yaml))
                (Sample.callback "S1")) ->
       returned (generateInfo
                   (Sample.env Sample.caFile Sample.tokenWithoutID Sample.yaml)) r2
       = None
       /\ resp (after (generateInfo
                        (Sample.env Sample.caFile Sample.tokenWithoutID Sample.yaml))
                 r2)
          = [HttpRedirect "/" StatusTemporaryRedirect]
       /\ jar (after (generateInfo
                       (Sample.env Sample.caFile Sample.tokenWithoutID Sample.yaml))
                r2) = cleared (Cookies r2).
Proof.
  apply (callbackHandler_stores_id_token_unchecked
           (Sample.env Sample.caFile Sample.tokenWithoutID Sample.yaml)
           (Sample.callback "S1") Sample.tokenWithoutID);
    [ reflexivity | reflexivity | reflexivity | reflexivity | reflexivity
    | repeat split | reflexivity ].
Defined.

(** ** Claims on the credential assembler *)

(** C7.  In every record [generateInfo] returns, the user name is the
    string held by the configured username claim of the parsed ID token,
    and [KubeCfgUser] is that user name, then "@", then the configured
    cluster name: the join adds exactly one "@" to those its two parts
    contain. *)
Theorem generateInfo_kubeCfgUser (E : Env) (r : Request) (info : userInfo) :
  returned (generateInfo E) r = Some info ->
  (exists idToken claims,
      ParseToken E idToken (config.ClientSecret (cfg E)) = Ok claims
      /\ index claims (config.UsernameClaim (cfg E)) = IString (Username info))
  /\ KubeCfgUser info = Username info +:+ "@" +:+ config.ClusterName (cfg E)
  /\ count_char "@" (KubeCfgUser info)
     = count_char "@" (Username info) + 1
       + count_char "@" (config.ClusterName (cfg E)).
Proof.
  unfold returned. intros Hret.
  destruct (generateInfo E r (start r)) as [res s'] eqn:Hgen.
  simpl in Hret. subst res.
  apply generateInfo_Some_inv in Hgen
    as (idToken & refreshToken & username & issuer & Hauth & ->).
  destruct Hauth as [_ _ _ _ (claims & Hparse & Huser & _)].
  split; [ exists idToken, claims; auto | ].
  split; [ reflexivity | ].
  simpl. rewrite !count_char_app. simpl. lia.
Qed.

Lemma generateInfo_kubeCfgUser_witness :
  (exists idToken claims,
      ParseToken Sample.E idToken (config.ClientSecret (cfg Sample.E)) = Ok claims
      /\ index claims (config.UsernameClaim (cfg Sample.E))
         = IString (Username Sample.info))
  /\ KubeCfgUser Sample.info
     = Username Sample.info +:+ "@" +:+ config.ClusterName (cfg Sample.E)
  /\ count_char "@" (KubeCfgUser Sample.info)
     = count_char "@" (Username Sample.info) + 1
       + count_char "@" (config.ClusterName (cfg Sample.E)).
Proof.
  apply (generateInfo_kubeCfgUser Sample.E Sample.loggedIn Sample.info).
  vm_compute. reflexivity.
Defined.

(** C8.  When the token partitions load and the id-token partition holds
    no string under id_token, or the refresh-token partition none under
    refresh_token (the key is absent, the session was never populated, or
    the value has another type), [generateInfo] returns no record, clears
    the three partitions and redirects to "/".  A second call on the jar
    this leaves does the same and leaves the same jar: the response is
    again the redirect alone, with no error written. *)
Theorem generateInfo_clears_and_redirects (E : Env) (r : Request) :
  readable r idTokenPartition = true ->
  readable r refreshTokenPartition = true ->
  as_string (index (valuesOf r idTokenPartition) "id_token") = None
  \/ as_string (index (valuesOf r refreshTokenPartition) "refresh_token") = None ->
  returned (generateInfo E) r = None
  /\ jar (after (generateInfo E) r) = cleared (Cookies r)
  /\ resp (after (generateInfo E) r) = [HttpRedirect "/" StatusTemporaryRedirect]
  /\ forall r2 : Request,
       Cookies r2 = jar (after (generateInfo E) r) ->
       returned (generateInfo E) r2 = None
       /\ jar (after (generateInfo E) r2) = jar (after (generateInfo E) r)
       /\ resp (after (generateInfo E) r2)
          = [HttpRedirect "/" StatusTemporaryRedirect].
Proof.
  intros H1 H2 Hno. unfold returned, after.
  rewrite (generateInfo_unauthenticated E r (start r) H1 H2 Hno).
  cbn [fst snd jar resp start app].
  split; [ reflexivity | split; [ reflexivity | split; [ reflexivity | ] ] ].
  intros r2 Hjar.
  rewrite (generateInfo_unauthenticated E r2 (start r2)).
  - cbn [fst snd jar resp start app].
    rewrite Hjar, cleared_idemp. repeat split.
  - unfold readable. rewrite Hjar, cleared_lookup by auto. reflexivity.
  - unfold readable. rewrite Hjar, cleared_lookup by auto. reflexivity.
  - left. unfold valuesOf. rewrite Hjar, cleared_lookup by auto. reflexivity.
Qed.

Lemma generateInfo_clears_and_redirects_witness :
  returned (generateInfo Sample.E) Sample.anonymous = None
  /\ jar (after (generateInfo Sample.E) Sample.anonymous)
     = cleared (Cookies Sample.anonymous)
  /\ resp (after (generateInfo Sample.E) Sample.anonymous)
     = [HttpRedirect "/" StatusTemporaryRedirect]
  /\ forall r2 : Request,
       Cookies r2 = jar (after (generateInfo Sample.E) Sample.anonymous) ->
       returned (generateInfo Sample.E) r2 = None
       /\ jar (after (generateInfo Sample.E) r2)
          = jar (after (generateInfo Sample.E) Sample.anonymous)
       /\ resp (after (generateInfo Sample.E) r2)
          = [HttpRedirect "/" StatusTemporaryRedirect].
Proof.
  apply (generateInfo_clears_and_redirects Sample.E Sample.anonymous);
    [ reflexivity | reflexivity | left; reflexivity ].
Defined.

(** A stored id_token of another type is treated the same way, and the
    other cookies of the jar are left alone. *)
Example generateInfo_number_id_token :
  generateInfo Sample.E
    (Sample.carrying
       (<["gangway_id_token" := sessions.Valid (<["id_token" := INumber 7]> ∅)]>
        (<["theme" := sessions.Valid ∅]> ∅)))
    {| jar := <["gangway_id_token" := sessions.Valid (<["id_token" := INumber 7]> ∅)]>
              (<["theme" := sessions.Valid ∅]> ∅);
       resp := []; logs := []; exchanges := [] |}
  = (None, {| jar := <["theme" := sessions.Valid ∅]> ∅;
              resp := [HttpRedirect "/" 307]; logs := []; exchanges := [] |}).
Proof. vm_compute. reflexivity. Qed.

(** ** Claims on the /kubeconfig endpoint *)

(** [kubeConfigHandler] on an authenticated request: the outcome is decided
    by the marshalling of the document alone. *)
Lemma kubeConfigHandler_authenticated E r s idToken refreshToken username issuer :
  authenticated E r idToken refreshToken username issuer ->
  kubeConfigHandler E r s
  = match yaml_Marshal E
            (documentOf (infoFor E idToken refreshToken username issuer)) with
    | Ok d =>
        (Some tt,
         {| jar := jar s;
            resp := resp s ++ [HeaderAdd "Content-Disposition" "Attachment";
                               BodyWrite d];
            logs := logs s ++ caLogs E ++ configLogs E;
            exchanges := exchanges s |})
    | Err err =>
        (None,
         {| jar := jar s;
            resp := resp s ++ [HttpError "Error creating kubeconfig"
                                 StatusInternalServerError];
            logs := (logs s ++ caLogs E ++ configLogs E)
                    ++ [LogError ("Error creating kubeconfig - " +:+ err)];
            exchanges := exchanges s |})
    end.
Proof.
  intros Hauth. unfold kubeConfigHandler, bind at 1.
  rewrite (generateInfo_authenticated E r s _ _ _ _ Hauth).
  unfold documentOf.
  destruct (generateKubeConfig _) as [info' kcfg]. cbn [snd].
  destruct (yaml_Marshal E kcfg) as [d|err]; run;
    rewrite <- ?app_assoc; reflexivity.
Qed.

(** The state [generateInfo] leaves when it returns a record. *)
Lemma generateInfo_returned E r info :
  returned (generateInfo E) r = Some info ->
  exists idToken refreshToken username issuer,
    authenticated E r idToken refreshToken username issuer
    /\ info = infoFor E idToken refreshToken username issuer.
Proof.
  unfold returned. intros Hret.
  destruct (generateInfo E r (start r)) as [res s'] eqn:Hgen.
  simpl in Hret. subst res. by apply generateInfo_Some_inv in Hgen.
Qed.

(** C4, a record the call changes.  The record of user alice lists one
    cluster before the call and two after it. *)
Lemma generateKubeConfig_changes_record :
  ~ leavesRecordUnchanged Sample.info.
Proof.
  unfold leavesRecordUnchanged. intros H.
  apply (f_equal (fun cfg => length (Clusters cfg))) in H.
  vm_compute in H. discriminate H.
Qed.

(** C4, as amended.  [generateKubeConfig] is a total function of the
    record alone: it reads and writes nothing else and has no failure
    path.  It leaves every field of the record as it was except
    [Clusters], to which it appends the primary cluster's entry.  For a
    request for which [generateInfo] returns a record, the /kubeconfig
    handler fails only when marshalling the document fails, and then it
    answers 500 with the body "Error creating kubeconfig", the cause going
    to the log; otherwise it writes the marshalled document. *)
Theorem generateKubeConfig_frame_and_failure (E : Env) (r : Request)
    (info : userInfo) :
  returned (generateInfo E) r = Some info ->
  (forall cfg : userInfo,
      recordAfter cfg = set_Clusters cfg (Clusters cfg ++ [primaryCluster cfg]))
  /\ jar (after (kubeConfigHandler E) r) = Cookies r
  /\ match yaml_Marshal E (documentOf info) with
     | Ok d =>
         returned (kubeConfigHandler E) r = Some tt
         /\ resp (after (kubeConfigHandler E) r)
            = [HeaderAdd "Content-Disposition" "Attachment"; BodyWrite d]
     | Err err =>
         returned (kubeConfigHandler E) r = None
         /\ resp (after (kubeConfigHandler E) r)
            = [HttpError "Error creating kubeconfig" StatusInternalServerError]
         /\ statusOf (resp (after (kubeConfigHandler E) r)) = Some 500
         /\ logs (after (kubeConfigHandler E) r)
            = logs (after (generateInfo E) r)
              ++ [LogError ("Error creating kubeconfig - " +:+ err)]
     end.
Proof.
  intros Hret.
  apply generateInfo_returned in Hret
    as (idToken & refreshToken & username & issuer & Hauth & ->).
  split; [ intros cfg; apply generateKubeConfig_record | ].
  unfold returned, after.
  rewrite (kubeConfigHandler_authenticated E r (start r) _ _ _ _ Hauth).
  rewrite (generateInfo_authenticated E r (start r) _ _ _ _ Hauth).
  destruct (yaml_Marshal E _) as [d|err]; repeat split.
Qed.

Lemma generateKubeConfig_frame_and_failure_witness :
  (forall cfg : userInfo,
      recordAfter cfg = set_Clusters cfg (Clusters cfg ++ [primaryCluster cfg]))
  /\ jar (after (kubeConfigHandler
                  (Sample.env Sample.caFile Sample.token Sample.yamlError))
            Sample.loggedIn) = Cookies Sample.loggedIn
  /\ returned (kubeConfigHandler
                 (Sample.env Sample.caFile Sample.token Sample.yamlError))
       Sample.loggedIn = None
  /\ resp (after (kubeConfigHandler
                    (Sample.env Sample.caFile Sample.token Sample.yamlError))
             Sample.loggedIn)
     = [HttpError "Error creating kubeconfig" StatusInternalServerError]
  /\ statusOf (resp (after (kubeConfigHandler
                              (Sample.env Sample.caFile Sample.token
                                 Sample.yamlError))
                       Sample.loggedIn)) = Some 500
  /\ logs (after (kubeConfigHandler
                    (Sample.env Sample.caFile Sample.token Sample.yamlError))
             Sample.loggedIn)
     = logs (after (generateInfo
                      (Sample.env Sample.caFile Sample.token Sample.yamlError))
               Sample.loggedIn)
       ++ [LogError ("Error creating kubeconfig - " +:+ "json: unsupported value")].
Proof.
  apply (generateKubeConfig_frame_and_failure
           (Sample.env Sample.caFile Sample.token Sample.yamlError)
           Sample.loggedIn Sample.info).
  vm_compute. reflexivity.
Defined.

(** What is read from the CA file in each of its states. *)
Lemma caRead_cases E :
  match fs E (config.ClusterCAPath (cfg E)) with
  | Missing _ => caRead E = []
  | Present data _ => caRead E = data
  end.
Proof.
  unfold caRead, os_Open.
  destruct (fs E (config.ClusterCAPath (cfg E))) as [e|data rerr]; reflexivity.
Qed.

(** C9, a failing read that leaves CA bytes.  The request is authenticated
    and reading the CA file fails after ten bytes: the record comes back
    with those ten bytes as its CA, not with empty CA bytes. *)
Lemma generateInfo_read_failure_keeps_bytes :
  ~ caFailureGivesEmptyCA
      (Sample.env Sample.partialCA Sample.token Sample.yaml) Sample.loggedIn.
Proof.
  intros Hclaim. destruct Hclaim as (info & Hret & Hca).
  - exists "T", "R", "alice", "https://idp.example.com".
    split; try reflexivity.
    exists Sample.claims. repeat split.
  - exact I.
  - vm_compute in Hret. injection Hret as <-.
    vm_compute in Hca. discriminate Hca.
Qed.

(** C9, as amended.  For an authenticated request, a CA file that cannot
    be opened or read is logged and is not fatal: [generateInfo] returns
    the fully built record.  Its CA bytes are empty when the file cannot be
    opened; when the file opens and the read fails, they are the bytes the
    read returned before the error.  /kubeconfig then answers 200 with the
    marshalled document, whose primary cluster entry carries exactly those
    bytes. *)
Theorem generateInfo_ca_failure_not_fatal (E : Env) (r : Request)
    (idToken refreshToken username issuer : string) (d : bytes) :
  authenticated E r idToken refreshToken username issuer ->
  caFails E ->
  yaml_Marshal E (documentOf (infoFor E idToken refreshToken username issuer))
  = Ok d ->
  exists info : userInfo,
    returned (generateInfo E) r = Some info
    /\ info = infoFor E idToken refreshToken username issuer
    /\ match fs E (config.ClusterCAPath (cfg E)) with
       | Missing _ => ClusterCA info = ""
       | Present data _ => ClusterCA info = string_of_bytes data
       end
    /\ logs (after (generateInfo E) r) = caLogs E ++ configLogs E
    /\ caLogs E <> []
    /\ returned (kubeConfigHandler E) r = Some tt
    /\ resp (after (kubeConfigHandler E) r)
       = [HeaderAdd "Content-Disposition" "Attachment"; BodyWrite d]
    /\ statusOf (resp (after (kubeConfigHandler E) r)) = Some 200
    /\ yaml_Marshal E (documentOf info) = Ok d
    /\ clientcmdapi.Clusters (documentOf info)
       = config.Clusters (cfg E) ++ [primaryCluster info]
    /\ caOf (primaryCluster info) = caRead E.
Proof.
  intros Hauth Hfail Hyaml.
  exists (infoFor E idToken refreshToken username issuer).
  unfold returned, after.
  rewrite (kubeConfigHandler_authenticated E r (start r) _ _ _ _ Hauth), Hyaml.
  rewrite (generateInfo_authenticated E r (start r) _ _ _ _ Hauth).
  cbn [fst snd logs resp start app].
  pose proof (caRead_cases E) as Hread.
  unfold caFails, caLogs in *.
  repeat split.
  - destruct (fs E (config.ClusterCAPath (cfg E))) as [e|data rerr];
      simpl; by rewrite Hread.
  - destruct (fs E (config.ClusterCAPath (cfg E))) as [e|data [e|]];
      [ discriminate | discriminate | contradiction ].
  - unfold caOf, primaryCluster. simpl. apply bytes_of_string_of_bytes.
Qed.

Lemma generateInfo_ca_failure_not_fatal_witness :
  exists info : userInfo,
    returned (generateInfo (Sample.env Sample.missingCA Sample.token Sample.yaml))
      Sample.loggedIn = Some info
    /\ info = infoFor (Sample.env Sample.missingCA Sample.token Sample.yaml)
                "T" "R" "alice" "https://idp.example.com"
    /\ ClusterCA info = ""
    /\ logs (after (generateInfo
                      (Sample.env Sample.missingCA Sample.token Sample.yaml))
               Sample.loggedIn)
       = caLogs (Sample.env Sample.missingCA Sample.token Sample.yaml)
         ++ configLogs (Sample.env Sample.missingCA Sample.token Sample.yaml)
    /\ caLogs (Sample.env Sample.missingCA Sample.token Sample.yaml) <> []
    /\ returned (kubeConfigHandler
                   (Sample.env Sample.missingCA Sample.token Sample.yaml))
         Sample.loggedIn = Some tt
    /\ resp (after (kubeConfigHandler
                      (Sample.env Sample.missingCA Sample.token Sample.yaml))
               Sample.loggedIn)
       = [HeaderAdd "Content-Disposition" "Attachment";
          BodyWrite (bytes_of_string "kind: Config")]
    /\ statusOf (resp (after (kubeConfigHandler
                                (Sample.env Sample.missingCA Sample.token
                                   Sample.yaml))
                         Sample.loggedIn)) = Some 200
    /\ yaml_Marshal (Sample.env Sample.missingCA Sample.token Sample.yaml)
         (documentOf info) = Ok (bytes_of_string "kind: Config")
    /\ clientcmdapi.Clusters (documentOf info)
       = config.Clusters (cfg (Sample.env Sample.missingCA Sample.token Sample.yaml))
         ++ [primaryCluster info]
    /\ caOf (primaryCluster info)
       = caRead (Sample.env Sample.missingCA Sample.token Sample.yaml).
Proof.
  apply (generateInfo_ca_failure_not_fatal
           (Sample.env Sample.missingCA Sample.token Sample.yaml)
           Sample.loggedIn "T" "R" "alice" "https://idp.example.com"
           (bytes_of_string "kind: Config")).
  - split; try reflexivity. exists Sample.claims. repeat split.
  - exact I.
  - reflexivity.
Defined.

(** * Further properties *)

(** ** The generated document *)

Lemma primaryCluster_recordAfter cfg :
  primaryCluster (recordAfter cfg) = primaryCluster cfg.
Proof. reflexivity. Qed.

Lemma string_of_bytes_of_string s : string_of_bytes (bytes_of_string s) = s.
Proof. apply string_of_list_byte_of_string. Qed.

(** X1.  The document has one context per cluster entry, in the same
    order; each context is named after its cluster entry and points to it.
    The names are those of the configured clusters followed by the primary
    cluster's name. *)
Theorem generateKubeConfig_contexts_mirror_clusters (cfg : userInfo) :
  map clientcmdapi.context_Name (clientcmdapi.Contexts (documentOf cfg))
  = map clientcmdapi.cluster_Name (clientcmdapi.Clusters (documentOf cfg))
  /\ map (fun c => clientcmdapi.ctx_Cluster (clientcmdapi.context_Context c))
         (clientcmdapi.Contexts (documentOf cfg))
     = map clientcmdapi.cluster_Name (clientcmdapi.Clusters (documentOf cfg))
  /\ map clientcmdapi.cluster_Name (clientcmdapi.Clusters (documentOf cfg))
     = map clientcmdapi.cluster_Name (Clusters cfg) ++ [ClusterName cfg].
Proof.
  rewrite generateKubeConfig_Contexts, !map_map, generateKubeConfig_Clusters.
  split; [ reflexivity | split; [ reflexivity | ] ].
  by rewrite map_app.
Qed.

(** X2.  The configured cluster entries reach the document unchanged, CA
    data included (the loop's assignment does not reach them), and the
    primary cluster is appended last: its server is the record's API
    server URL and its CA bytes convert back to the record's CA string. *)
Theorem generateKubeConfig_clusters_passed_through (cfg : userInfo) :
  take (length (Clusters cfg)) (clientcmdapi.Clusters (documentOf cfg))
  = Clusters cfg
  /\ length (clientcmdapi.Clusters (documentOf cfg)) = S (length (Clusters cfg))
  /\ (exists nc,
        last (clientcmdapi.Clusters (documentOf cfg)) = Some nc
        /\ clientcmdapi.cluster_Name nc = ClusterName cfg
        /\ clientcmdapi.Server (clientcmdapi.cluster_Cluster nc) = APIServerURL cfg
        /\ string_of_bytes (caOf nc) = ClusterCA cfg).
Proof.
  rewrite generateKubeConfig_Clusters. split; [ | split ].
  - by rewrite take_app_length.
  - rewrite length_app. simpl. lia.
  - exists (primaryCluster cfg). rewrite last_snoc.
    repeat split. apply string_of_bytes_of_string.
Qed.


(** X4.  [generateKubeConfig] is not idempotent on its argument: called
    again on the record it left behind, it yields a document in which the
    primary cluster entry and its context appear twice. *)
Theorem generateKubeConfig_twice_duplicates_primary (cfg : userInfo) :
  clientcmdapi.Clusters (documentOf (recordAfter cfg))
  = Clusters cfg ++ [primaryCluster cfg; primaryCluster cfg]
  /\ map clientcmdapi.context_Name
         (clientcmdapi.Contexts (documentOf (recordAfter cfg)))
     = map clientcmdapi.cluster_Name (Clusters cfg)
       ++ [ClusterName cfg; ClusterName cfg]
  /\ length (clientcmdapi.Clusters (documentOf (recordAfter cfg)))
     = S (length (clientcmdapi.Clusters (documentOf cfg))).
Proof.
  rewrite generateKubeConfig_Contexts, map_map.
  rewrite !generateKubeConfig_Clusters, primaryCluster_recordAfter.
  rewrite generateKubeConfig_record. simpl.
  rewrite <- !app_assoc. simpl. repeat split.
  - by rewrite map_app.
  - rewrite !length_app. simpl. lia.
Qed.

(** ** The callback *)

(** [callbackHandler] with its three sessions loaded. *)
Lemma callbackHandler_loaded E r s :
  loaded r = true ->
  callbackHandler E r s
  = (let session := {| sessions.Name := "gangway";
                       sessions.Values := valuesOf r "gangway" |} in
     let sessionIDToken := {| sessions.Name := "gangway_id_token";
                              sessions.Values := valuesOf r "gangway_id_token" |} in
     let sessionRefreshToken :=
       {| sessions.Name := "gangway_refresh_token";
          sessions.Values := valuesOf r "gangway_refresh_token" |} in
     if bool_decide (IString (Query_Get r "state")
                     <> index (sessions.Values session) "state") then
       (http_Error (StatusText StatusForbidden) StatusForbidden ;;; stop) s
     else
       (res <~ o2token_Exchange E (Query_Get r "code") ;;
        token <~ try_ res (fun err => http_Error err StatusInternalServerError) ;;
        res <~ Session_Save E session ;;
        try_ res (fun err => http_Error err StatusInternalServerError) ;;;
        res <~ Session_Save E
                 (sessions.set_Value sessionIDToken "id_token"
                    (oauth2.Extra token "id_token")) ;;
        try_ res (fun err => http_Error err StatusInternalServerError) ;;;
        res <~ Session_Save E
                 (sessions.set_Value sessionRefreshToken "refresh_token"
                    (IString (oauth2.RefreshToken token))) ;;
        try_ res (fun err => http_Error err StatusInternalServerError) ;;;
        http_Redirect (config.HTTPPath (cfg E) +:+ "/commandline") StatusSeeOther)
         s).
Proof.
  intros Hl. apply loaded_readable in Hl as (H1 & H2 & H3).
  unfold primary, idTokenPartition, refreshTokenPartition in *.
  unfold callbackHandler.
  rewrite (Session_Get_readable _ _ H1), (Session_Get_readable _ _ H2),
    (Session_Get_readable _ _ H3).
  cbv [bind try_ ret]. cbn [sessions.Values].
  destruct (bool_decide _); reflexivity.
Qed.

(** X6.  When the sessions load and the state matches but the provider
    refuses the code, the callback answers 500 with the provider's error
    text; the code has been sent once and nothing is saved. *)
Theorem callbackHandler_exchange_failure (E : Env) (r : Request) (err : string) :
  loaded r = true ->
  index (valuesOf r primary) "state" = IString (Query_Get r "state") ->
  Exchange E (Query_Get r "code") = Err err ->
  returned (callbackHandler E) r = None
  /\ resp (after (callbackHandler E) r) = [HttpError err StatusInternalServerError]
  /\ exchanges (after (callbackHandler E) r) = [Query_Get r "code"]
  /\ jar (after (callbackHandler E) r) = Cookies r.
Proof.
  intros Hl Hst Hex. unfold returned, after, primary in *.
  rewrite (callbackHandler_loaded E r (start r) Hl). run.
  rewrite bool_decide_eq_false_2 by (rewrite Hst; tauto).
  rewrite Hex. repeat split.
Qed.

Lemma callbackHandler_exchange_failure_witness :
  returned (callbackHandler Sample.E) (Sample.callbackWith "C0") = None
  /\ resp (after (callbackHandler Sample.E) (Sample.callbackWith "C0"))
     = [HttpError "invalid_grant" StatusInternalServerError]
  /\ exchanges (after (callbackHandler Sample.E) (Sample.callbackWith "C0"))
     = [Query_Get (Sample.callbackWith "C0") "code"]
  /\ jar (after (callbackHandler Sample.E) (Sample.callbackWith "C0"))
     = Cookies (Sample.callbackWith "C0").
Proof.
  apply (callbackHandler_exchange_failure Sample.E (Sample.callbackWith "C0")
           "invalid_grant"); reflexivity.
Defined.

(** X7.  Saves are not rolled back.  With the sessions loaded, the state
    matched, the code exchanged and the primary partition saved: if the
    save of the id-token partition is refused, the callback answers 500
    and the jar holds the primary partition saved and the two token
    partitions as the request carried them; if that save is accepted and
    the save of the refresh-token partition is refused, the answer is 500
    and the jar holds the new ID token beside the old refresh-token
    partition. *)
Theorem callbackHandler_partial_persistence (E : Env) (r : Request)
    (token : oauth2.Token) :
  loaded r = true ->
  index (valuesOf r primary) "state" = IString (Query_Get r "state") ->
  Exchange E (Query_Get r "code") = Ok token ->
  Save_err E primary (valuesOf r primary) = None ->
  (forall err,
      Save_err E idTokenPartition (idTokenValues r token) = Some err ->
      resp (after (callbackHandler E) r) = [HttpError err StatusInternalServerError]
      /\ jar (after (callbackHandler E) r)
         = <[primary := sessions.Valid (valuesOf r primary)]> (Cookies r))
  /\ (forall err,
        Save_err E idTokenPartition (idTokenValues r token) = None ->
        Save_err E refreshTokenPartition (refreshTokenValues r token) = Some err ->
        resp (after (callbackHandler E) r)
        = [HttpError err StatusInternalServerError]
        /\ jar (after (callbackHandler E) r)
           = <[idTokenPartition := sessions.Valid (idTokenValues r token)]>
               (<[primary := sessions.Valid (valuesOf r primary)]> (Cookies r))).
Proof.
  intros Hl Hst Hex Hs1.
  assert (Hrun : forall s, callbackHandler E r s
            = (res <~ Session_Save E
                        {| sessions.Name := idTokenPartition;
                           sessions.Values := idTokenValues r token |} ;;
               try_ res (fun err => http_Error err StatusInternalServerError) ;;;
               res <~ Session_Save E
                        {| sessions.Name := refreshTokenPartition;
                           sessions.Values := refreshTokenValues r token |} ;;
               try_ res (fun err => http_Error err StatusInternalServerError) ;;;
               http_Redirect (config.HTTPPath (cfg E) +:+ "/commandline")
                 StatusSeeOther)
                {| jar := <[primary := sessions.Valid (valuesOf r primary)]> (jar s);
                   resp := resp s; logs := logs s;
                   exchanges := exchanges s ++ [Query_Get r "code"] |}).
  { intros s. rewrite (callbackHandler_loaded E r s Hl).
    unfold primary in *. run.
    rewrite bool_decide_eq_false_2 by (rewrite Hst; tauto).
    rewrite Hex. simpl. rewrite Hs1. reflexivity. }
  unfold after. rewrite Hrun. run.
  split.
  - intros err Hs2. rewrite Hs2. split; reflexivity.
  - intros err Hs2 Hs3. rewrite Hs2. simpl. rewrite Hs3. split; reflexivity.
Qed.

Lemma callbackHandler_partial_persistence_witness :
  (forall err,
      Save_err Sample.saveRefused idTokenPartition
        (idTokenValues (Sample.callback "S1") Sample.token) = Some err ->
      resp (after (callbackHandler Sample.saveRefused) (Sample.callback "S1"))
      = [HttpError err StatusInternalServerError]
      /\ jar (after (callbackHandler Sample.saveRefused) (Sample.callback "S1"))
         = <[primary := sessions.Valid (valuesOf (Sample.callback "S1") primary)]>
             (Cookies (Sample.callback "S1")))
  /\ (forall err,
        Save_err Sample.saveRefused idTokenPartition
          (idTokenValues (Sample.callback "S1") Sample.token) = None ->
        Save_err Sample.saveRefused refreshTokenPartition
          (refreshTokenValues (Sample.callback "S1") Sample.token) = Some err ->
        resp (after (callbackHandler Sample.saveRefused) (Sample.callback "S1"))
        = [HttpError err StatusInternalServerError]
        /\ jar (after (callbackHandler Sample.saveRefused) (Sample.callback "S1"))
           = <[idTokenPartition :=
                 sessions.Valid (idTokenValues (Sample.callback "S1") Sample.token)]>
               (<[primary :=
                    sessions.Valid (valuesOf (Sample.callback "S1") primary)]>
                  (Cookies (Sample.callback "S1")))).
Proof.
  apply (callbackHandler_partial_persistence Sample.saveRefused
           (Sample.callback "S1") Sample.token); reflexivity.
Defined.

(** X8.  Whatever the request and the collaborators do, the callback
    writes exactly one response: a 303 when it ran to its end, a 403 or a
    500 when it returned early. *)
Theorem callbackHandler_one_response (E : Env) (r : Request) :
  (exists op, resp (after (callbackHandler E) r) = [op])
  /\ (returned (callbackHandler E) r = Some tt
      /\ statusOf (resp (after (callbackHandler E) r)) = Some 303
      \/ returned (callbackHandler E) r = None
         /\ (statusOf (resp (after (callbackHandler E) r)) = Some 403
             \/ statusOf (resp (after (callbackHandler E) r)) = Some 500)).
Proof.
  unfold returned, after. destruct (loaded r) eqn:Hl.
  - rewrite (callbackHandler_loaded E r (start r) Hl). run.
    callback_cases; split; eauto.
  - destruct (callbackHandler_unloaded E r (start r) Hl) as [err ->].
    simpl. split; eauto.
Qed.

(** X9.  A code is sent to the provider at most once, and only after the
    three sessions loaded and the request's state equalled the stored one;
    when no code is sent the cookie jar stays what the request carried. *)
Theorem callbackHandler_exchange_guarded (E : Env) (r : Request) :
  exchanges (after (callbackHandler E) r) = []
  /\ jar (after (callbackHandler E) r) = Cookies r
  \/ exchanges (after (callbackHandler E) r) = [Query_Get r "code"]
     /\ loaded r = true
     /\ index (valuesOf r primary) "state" = IString (Query_Get r "state").
Proof.
  unfold after, primary. destruct (loaded r) eqn:Hl.
  - rewrite (callbackHandler_loaded E r (start r) Hl). run.
    destruct (bool_decide _) eqn:Hb; simpl.
    + left. split; reflexivity.
    + right. apply bool_decide_eq_false in Hb.
      assert (Hst : index (valuesOf r "gangway") "state"
                    = IString (Query_Get r "state")).
      { destruct (decide (IString (Query_Get r "state")
                          = index (valuesOf r "gangway") "state")) as [->|Hne];
          [ reflexivity | contradiction ]. }
      callback_cases; auto.
  - destruct (callbackHandler_unloaded E r (start r) Hl) as [err ->].
    left. split; reflexivity.
Qed.

(** X10.  The callback never touches a cookie other than the three
    session partitions. *)
Theorem callbackHandler_other_cookies_kept (E : Env) (r : Request)
    (name : string) :
  outside name ->
  jar (after (callbackHandler E) r) !! name = Cookies r !! name.
Proof.
  unfold outside, primary, idTokenPartition, refreshTokenPartition, after.
  intros (N1 & N2 & N3). destruct (loaded r) eqn:Hl.
  - rewrite (callbackHandler_loaded E r (start r) Hl). run.
    callback_cases; rewrite ?lookup_insert_ne by congruence; reflexivity.
  - by destruct (callbackHandler_unloaded E r (start r) Hl) as [err ->].
Qed.

Lemma callbackHandler_other_cookies_kept_witness :
  jar (after (callbackHandler Sample.E) (Sample.callback "S1")) !! "theme"
  = Cookies (Sample.callback "S1") !! "theme".
Proof.
  apply (callbackHandler_other_cookies_kept Sample.E (Sample.callback "S1")
           "theme").
  repeat split; discriminate.
Defined.

(** Once the sessions are loaded and the state matches, the code is sent. *)
Lemma callbackHandler_reaches_exchange E r s :
  loaded r = true ->
  index (valuesOf r primary) "state" = IString (Query_Get r "state") ->
  exchanges (snd (callbackHandler E r s)) = exchanges s ++ [Query_Get r "code"].
Proof.
  intros Hl Hst. unfold primary in *.
  rewrite (callbackHandler_loaded E r s Hl). run.
  rewrite bool_decide_eq_false_2 by (rewrite Hst; tauto).
  callback_cases; reflexivity.
Qed.

(** The jar a successful callback leaves is readable by the next request. *)
Lemma callbackHandler_success_next E r token r2 :
  loaded r = true ->
  index (valuesOf r primary) "state" = IString (Query_Get r "state") ->
  Exchange E (Query_Get r "code") = Ok token ->
  savesSucceed E r token ->
  Cookies r2 = jar (after (callbackHandler E) r) ->
  loaded r2 = true
  /\ valuesOf r2 primary = valuesOf r primary
  /\ valuesOf r2 idTokenPartition = idTokenValues r token
  /\ valuesOf r2 refreshTokenPartition = refreshTokenValues r token.
Proof.
  intros Hl Hst Hex Hsave Hjar.
  destruct (loaded_readable r Hl) as (H1 & H2 & H3).
  destruct (callbackHandler_success_jar E r token H1 H2 H3 Hst Hex Hsave)
    as (Hp & Hid & Href).
  rewrite <- Hjar in Hp, Hid, Href.
  unfold loaded, readable, valuesOf.
  unfold primary, idTokenPartition, refreshTokenPartition in *.
  rewrite Hp, Hid, Href. repeat split.
Qed.

(** X11.  The callback does not consume the state.  After a successful
    callback the primary partition still holds the state, so a second
    callback that carries the resulting jar and the same state passes the
    state check again and sends its code to the provider. *)
Theorem callbackHandler_state_not_consumed (E : Env) (r r2 : Request)
    (token : oauth2.Token) :
  loaded r = true ->
  index (valuesOf r primary) "state" = IString (Query_Get r "state") ->
  Exchange E (Query_Get r "code") = Ok token ->
  savesSucceed E r token ->
  Cookies r2 = jar (after (callbackHandler E) r) ->
  Query_Get r2 "state" = Query_Get r "state" ->
  index (valuesOf r2 primary) "state" = IString (Query_Get r2 "state")
  /\ exchanges (after (callbackHandler E) r2) = [Query_Get r2 "code"].
Proof.
  intros Hl Hst Hex Hsave Hjar Hsame.
  destruct (callbackHandler_success_next E r token r2 Hl Hst Hex Hsave Hjar)
    as (Hl2 & Hp & _).
  assert (Hst2 : index (valuesOf r2 primary) "state"
                 = IString (Query_Get r2 "state")) by (by rewrite Hp, Hsame).
  split; [ exact Hst2 | ].
  unfold after. by rewrite (callbackHandler_reaches_exchange E r2 _ Hl2 Hst2).
Qed.

Lemma callbackHandler_state_not_consumed_witness :
  index (valuesOf
           {| Query := Query (Sample.callback "S1");
              Cookies := jar (after (callbackHandler Sample.E)
                                (Sample.callback "S1")) |} primary) "state"
  = IString (Query_Get
               {| Query := Query (Sample.callback "S1");
                  Cookies := jar (after (callbackHandler Sample.E)
                                    (Sample.callback "S1")) |} "state")
  /\ exchanges (after (callbackHandler Sample.E)
                  {| Query := Query (Sample.callback "S1");
                     Cookies := jar (after (callbackHandler Sample.E)
                                       (Sample.callback "S1")) |})
     = [Query_Get
          {| Query := Query (Sample.callback "S1");
             Cookies := jar (after (callbackHandler Sample.E)
                               (Sample.callback "S1")) |} "code"].
Proof.
  apply (callbackHandler_state_not_consumed Sample.E (Sample.callback "S1")
           {| Query := Query (Sample.callback "S1");
              Cookies := jar (after (callbackHandler Sample.E)
                                (Sample.callback "S1")) |}
           Sample.token);
    [ reflexivity | reflexivity | reflexivity | repeat split
    | reflexivity | reflexivity ].
Defined.

(** X12.  Tokens survive the trip from the callback to the kubeconfig.
    After a successful callback whose token carries a string ID token that
    parses to claims with the username and issuer, a request carrying the
    resulting jar gets from [generateInfo] a record with that ID token and
    the token's refresh token, and the document built from it carries both
    in its oidc settings. *)
Theorem callback_then_generateInfo (E : Env) (r r2 : Request)
    (token : oauth2.Token) (idToken username issuer : string)
    (claims : gmap string iface) :
  loaded r = true ->
  index (valuesOf r primary) "state" = IString (Query_Get r "state") ->
  Exchange E (Query_Get r "code") = Ok token ->
  savesSucceed E r token ->
  oauth2.Extra token "id_token" = IString idToken ->
  ParseToken E idToken (config.ClientSecret (cfg E)) = Ok claims ->
  index claims (config.UsernameClaim (cfg E)) = IString username ->
  index claims "iss" = IString issuer ->
  Cookies r2 = jar (after (callbackHandler E) r) ->
  exists info settings,
    returned (generateInfo E) r2 = Some info
    /\ IDToken info = idToken
    /\ RefreshToken info = oauth2.RefreshToken token
    /\ Username info = username
    /\ IssuerURL info = issuer
    /\ providerConfigs (documentOf info) = [settings]
    /\ settings !! "id-token" = Some idToken
    /\ settings !! "refresh-token" = Some (oauth2.RefreshToken token).
Proof.
  intros Hl Hst Hex Hsave Hid Hparse Huser Hiss Hjar.
  destruct (callbackHandler_success_next E r token r2 Hl Hst Hex Hsave Hjar)
    as (Hl2 & _ & Hv1 & Hv2).
  destruct (loaded_readable r2 Hl2) as (_ & R1 & R2).
  assert (Hauth : authenticated E r2 idToken (oauth2.RefreshToken token)
                    username issuer).
  { split; try assumption.
    - by rewrite Hv1, idTokenValues_id_token.
    - by rewrite Hv2, refreshTokenValues_refresh_token.
    - exists claims. auto. }
  eexists (infoFor E idToken (oauth2.RefreshToken token) username issuer), _.
  unfold returned.
  rewrite (generateInfo_authenticated E r2 (start r2) _ _ _ _ Hauth).
  split_and!; try reflexivity; by simplify_map_eq.
Qed.

Lemma callback_then_generateInfo_witness :
  exists info settings,
    returned (generateInfo Sample.E)
      (Sample.carrying (jar (after (callbackHandler Sample.E)
                               (Sample.callback "S1")))) = Some info
    /\ IDToken info = "T"
    /\ RefreshToken info = oauth2.RefreshToken Sample.token
    /\ Username info = "alice"
    /\ IssuerURL info = "https://idp.example.com"
    /\ providerConfigs (documentOf info) = [settings]
    /\ settings !! "id-token" = Some "T"
    /\ settings !! "refresh-token" = Some (oauth2.RefreshToken Sample.token).
Proof.
  apply (callback_then_generateInfo Sample.E (Sample.callback "S1")
           (Sample.carrying (jar (after (callbackHandler Sample.E)
                                    (Sample.callback "S1"))))
           Sample.token "T" "alice" "https://idp.example.com" Sample.claims);
    [ reflexivity | reflexivity | reflexivity | repeat split | reflexivity
    | reflexivity | reflexivity | reflexivity | reflexivity ].
Defined.

(** ** The credential assembler *)

(** [generateInfo] past the CA file and the two session loads. *)
Lemma generateInfo_loaded E r s :
  readable r idTokenPartition = true ->
  readable r refreshTokenPartition = true ->
  generateInfo E r s
  = (idToken <~ try_string (index (valuesOf r idTokenPartition) "id_token")
       clearAndRedirectHome ;;
     refreshToken <~ try_string
       (index (valuesOf r refreshTokenPartition) "refresh_token")
       clearAndRedirectHome ;;
     claims <~ try_ (ParseToken E idToken (config.ClientSecret (cfg E)))
       (fun _ => http_Error "Could not parse JWT" StatusInternalServerError) ;;
     username <~ try_string (index claims (config.UsernameClaim (cfg E)))
       (http_Error "Could not parse Username claim" StatusInternalServerError) ;;
     (if String.eqb (config.EmailClaim (cfg E)) "" then ret tt
      else log_Warningf emailClaimDeprecated) ;;;
     issuerURL <~ try_string (index claims "iss")
       (http_Error "Could not parse Issuer URL claim" StatusInternalServerError) ;;
     (if String.eqb (config.ClientSecret (cfg E)) ""
      then log_Warningf emptyClientSecret
      else ret tt) ;;;
     ret (infoFor E idToken refreshToken username issuerURL))
      {| jar := jar s; resp := resp s; logs := logs s ++ caLogs E;
         exchanges := exchanges s |}.
Proof.
  intros H1 H2. unfold idTokenPartition, refreshTokenPartition in *.
  unfold generateInfo, infoFor, caRead, caLogs, os_Open.
  rewrite (Session_Get_readable _ _ H1), (Session_Get_readable _ _ H2).
  destruct s as [j rs lg ex].
  destruct (fs E (config.ClusterCAPath (cfg E))) as [e|data [e|]];
    cbn [fst snd ioutil_ReadAll whenErr sessions.Values];
    cbv [bind try_ ret log_Errorf log_Warningf];
    cbn [jar resp logs exchanges]; rewrite <- ?app_assoc, ?app_nil_r;
    reflexivity.
Qed.

(** A session that does not load ends [generateInfo] with the generic 500. *)
Lemma generateInfo_unloaded E r s :
  readable r idTokenPartition && readable r refreshTokenPartition = false ->
  generateInfo E r s
  = (None, {| jar := jar s;
              resp := resp s ++ [HttpError "Internal Server Error"
                                   StatusInternalServerError];
              logs := logs s ++ caLogs E;
              exchanges := exchanges s |}).
Proof.
  unfold readable, idTokenPartition, refreshTokenPartition.
  unfold generateInfo, caLogs, os_Open, Session_Get.
  destruct (Cookies r !! "gangway_id_token") as [[v1|e1]|];
    destruct (Cookies r !! "gangway_refresh_token") as [[v2|e2]|];
    simpl; intros Hl; try discriminate Hl;
    destruct (fs E (config.ClusterCAPath (cfg E))) as [e|data [e|]];
    run; rewrite <- ?app_assoc, ?app_nil_r; reflexivity.
Qed.

(** The three ways [generateInfo] can end, from any state. *)
Lemma generateInfo_outcome E r s :
  (exists info, fst (generateInfo E r s) = Some info
                /\ resp (snd (generateInfo E r s)) = resp s
                /\ jar (snd (generateInfo E r s)) = jar s)
  \/ (fst (generateInfo E r s) = None
      /\ resp (snd (generateInfo E r s))
         = resp s ++ [HttpRedirect "/" StatusTemporaryRedirect]
      /\ jar (snd (generateInfo E r s)) = cleared (jar s))
  \/ (fst (generateInfo E r s) = None
      /\ (exists msg, resp (snd (generateInfo E r s))
                      = resp s ++ [HttpError msg StatusInternalServerError])
      /\ jar (snd (generateInfo E r s)) = jar s).
Proof.
  destruct (readable r idTokenPartition && readable r refreshTokenPartition)
    eqn:Hl.
  - apply andb_prop in Hl as [H1 H2].
    rewrite (generateInfo_loaded E r s H1 H2). unfold cleared, primary,
      idTokenPartition, refreshTokenPartition. run.
    repeat next_test; eauto 10.
  - rewrite (generateInfo_unloaded E r s Hl). simpl. eauto 10.
Qed.

(** X13.  [generateInfo] ends in one of three ways.  It returns a record,
    having written nothing to the response and left the jar alone; or it
    returns none after the single redirect to "/", the three partitions
    cleared; or it returns none after a single 500, the jar left as the
    request carried it. *)
Theorem generateInfo_three_outcomes (E : Env) (r : Request) :
  (exists info, returned (generateInfo E) r = Some info
                /\ resp (after (generateInfo E) r) = []
                /\ jar (after (generateInfo E) r) = Cookies r)
  \/ (returned (generateInfo E) r = None
      /\ resp (after (generateInfo E) r)
         = [HttpRedirect "/" StatusTemporaryRedirect]
      /\ jar (after (generateInfo E) r) = cleared (Cookies r))
  \/ (returned (generateInfo E) r = None
      /\ (exists msg, resp (after (generateInfo E) r)
                      = [HttpError msg StatusInternalServerError])
      /\ jar (after (generateInfo E) r) = Cookies r).
Proof. apply (generateInfo_outcome E r (start r)). Qed.

(** X14.  [generateInfo] never touches a cookie other than the three
    session partitions. *)
Theorem generateInfo_other_cookies_kept (E : Env) (r : Request) (name : string) :
  outside name ->
  jar (after (generateInfo E) r) !! name = Cookies r !! name.
Proof.
  intros (N1 & N2 & N3). unfold after.
  destruct (generateInfo_outcome E r (start r))
    as [(info & _ & _ & ->) | [(_ & _ & ->) | (_ & _ & ->)]];
    try reflexivity.
  unfold cleared. simpl. by rewrite !lookup_delete_ne.
Qed.

Lemma generateInfo_other_cookies_kept_witness :
  jar (after (generateInfo Sample.E) Sample.numberToken) !! "theme"
  = Cookies Sample.numberToken !! "theme".
Proof.
  apply (generateInfo_other_cookies_kept Sample.E Sample.numberToken "theme").
  repeat split; discriminate.
Defined.

(** X15.  When both token partitions hold strings but the ID token does
    not parse, [generateInfo] returns none after a 500 with the fixed text
    "Could not parse JWT" (the parser's error is not passed on), and the
    session is kept: the jar is what the request carried. *)
Theorem generateInfo_parse_failure (E : Env) (r : Request)
    (idToken refreshToken err : string) :
  readable r idTokenPartition = true ->
  readable r refreshTokenPartition = true ->
  index (valuesOf r idTokenPartition) "id_token" = IString idToken ->
  index (valuesOf r refreshTokenPartition) "refresh_token" = IString refreshToken ->
  ParseToken E idToken (config.ClientSecret (cfg E)) = Err err ->
  returned (generateInfo E) r = None
  /\ resp (after (generateInfo E) r)
     = [HttpError "Could not parse JWT" StatusInternalServerError]
  /\ jar (after (generateInfo E) r) = Cookies r.
Proof.
  intros H1 H2 Hid Href Hparse. unfold returned, after.
  rewrite (generateInfo_loaded E r (start r) H1 H2). run.
  rewrite Hid. simpl. rewrite Href. simpl. rewrite Hparse. repeat split.
Qed.

Lemma generateInfo_parse_failure_witness :
  returned (generateInfo Sample.E) Sample.staleToken = None
  /\ resp (after (generateInfo Sample.E) Sample.staleToken)
     = [HttpError "Could not parse JWT" StatusInternalServerError]
  /\ jar (after (generateInfo Sample.E) Sample.staleToken)
     = Cookies Sample.staleToken.
Proof.
  apply (generateInfo_parse_failure Sample.E Sample.staleToken "old" "R"
           "token contains an invalid number of segments"); reflexivity.
Defined.

(** X16.  Claims are required in order.  With a parsed ID token, a
    username claim that is absent or not a string ends [generateInfo] with
    a 500 "Could not parse Username claim", whatever the issuer claim is;
    with a string username claim, an issuer claim that is absent or not a
    string ends it with a 500 "Could not parse Issuer URL claim".  The
    session is kept in both cases. *)
Theorem generateInfo_claim_failures (E : Env) (r : Request)
    (idToken refreshToken : string) (claims : gmap string iface) :
  readable r idTokenPartition = true ->
  readable r refreshTokenPartition = true ->
  index (valuesOf r idTokenPartition) "id_token" = IString idToken ->
  index (valuesOf r refreshTokenPartition) "refresh_token" = IString refreshToken ->
  ParseToken E idToken (config.ClientSecret (cfg E)) = Ok claims ->
  as_string (index claims (config.UsernameClaim (cfg E))) = None
  \/ as_string (index claims "iss") = None ->
  returned (generateInfo E) r = None
  /\ jar (after (generateInfo E) r) = Cookies r
  /\ resp (after (generateInfo E) r)
     = [HttpError
          (match as_string (index claims (config.UsernameClaim (cfg E))) with
           | None => "Could not parse Username claim"
           | Some _ => "Could not parse Issuer URL claim"
           end) StatusInternalServerError].
Proof.
  intros H1 H2 Hid Href Hparse Hno. unfold returned, after.
  rewrite (generateInfo_loaded E r (start r) H1 H2). run.
  rewrite Hid. simpl. rewrite Href. simpl. rewrite Hparse. simpl.
  destruct (as_string (index claims (config.UsernameClaim (cfg E))))
    as [username|]; simpl; [ | repeat split ].
  destruct Hno as [Hno|Hno]; [ discriminate | ]. rewrite Hno.
  destruct (String.eqb (config.EmailClaim (cfg E)) ""); repeat split.
Qed.

Lemma generateInfo_claim_failures_witness :
  returned (generateInfo
              (Sample.envWithClaims (<["sub" := IString "alice"]> ∅)))
    Sample.loggedIn = None
  /\ jar (after (generateInfo
                  (Sample.envWithClaims (<["sub" := IString "alice"]> ∅)))
            Sample.loggedIn) = Cookies Sample.loggedIn
  /\ resp (after (generateInfo
                   (Sample.envWithClaims (<["sub" := IString "alice"]> ∅)))
             Sample.loggedIn)
     = [HttpError
          (match as_string
                   (index (<["sub" := IString "alice"]> ∅)
                      (config.UsernameClaim
                         (cfg (Sample.envWithClaims
                                 (<["sub" := IString "alice"]> ∅))))) with
           | None => "Could not parse Username claim"
           | Some _ => "Could not parse Issuer URL claim"
           end) StatusInternalServerError].
Proof.
  apply (generateInfo_claim_failures
           (Sample.envWithClaims (<["sub" := IString "alice"]> ∅))
           Sample.loggedIn "T" "R" (<["sub" := IString "alice"]> ∅));
    [ reflexivity | reflexivity | reflexivity | reflexivity | reflexivity
    | right; reflexivity ].
Defined.

(** X17.  When the id-token or the refresh-token partition does not load,
    [generateInfo] returns none after a 500 with the fixed text
    "Internal Server Error" (the store's error is not passed on) and clears
    nothing: the cookie that does not decode stays in the jar. *)
Theorem generateInfo_session_load_failure (E : Env) (r : Request) :
  readable r idTokenPartition && readable r refreshTokenPartition = false ->
  returned (generateInfo E) r = None
  /\ resp (after (generateInfo E) r)
     = [HttpError "Internal Server Error" StatusInternalServerError]
  /\ jar (after (generateInfo E) r) = Cookies r.
Proof.
  intros Hl. unfold returned, after.
  rewrite (generateInfo_unloaded E r (start r) Hl). repeat split.
Qed.

Lemma generateInfo_session_load_failure_witness :
  returned (generateInfo Sample.E) Sample.brokenRefresh = None
  /\ resp (after (generateInfo Sample.E) Sample.brokenRefresh)
     = [HttpError "Internal Server Error" StatusInternalServerError]
  /\ jar (after (generateInfo Sample.E) Sample.brokenRefresh)
     = Cookies Sample.brokenRefresh.
Proof.
  apply (generateInfo_session_load_failure Sample.E Sample.brokenRefresh).
  reflexivity.
Defined.

(** [generateInfo] reads the request through the two token partitions
    only. *)
Lemma generateInfo_reads_tokens_only E r r' s :
  Cookies r !! idTokenPartition = Cookies r' !! idTokenPartition ->
  Cookies r !! refreshTokenPartition = Cookies r' !! refreshTokenPartition ->
  generateInfo E r s = generateInfo E r' s.
Proof.
  unfold idTokenPartition, refreshTokenPartition. intros H1 H2.
  unfold generateInfo, Session_Get. by rewrite H1, H2.
Qed.

(** What [generateInfo] returns, writes and logs does not depend on the
    state it starts from; it either clears the jar or leaves it alone. *)
Lemma generateInfo_uniform E r :
  exists res dresp dlogs (clear : bool),
    forall s,
      generateInfo E r s
      = (res, {| jar := if clear then cleared (jar s) else jar s;
                 resp := resp s ++ dresp;
                 logs := logs s ++ dlogs;
                 exchanges := exchanges s |}).
Proof.
  destruct (readable r idTokenPartition && readable r refreshTokenPartition)
    eqn:Hl.
  - apply andb_prop in Hl as [R1 R2].
    assert (Hrun := fun s => generateInfo_loaded E r s R1 R2).
    unfold cleared, primary, idTokenPartition, refreshTokenPartition in *.
    revert Hrun. run. repeat next_test; intros Hrun.
    all: repeat setoid_rewrite <- app_assoc in Hrun.
    all: first
      [ by (eexists _, [_], _, true; intros st; rewrite Hrun)
      | by (eexists _, [_], _, false; intros st; rewrite Hrun)
      | by (eexists _, [], _, false; intros st; rewrite Hrun, app_nil_r) ].
  - eexists _, _, _, false. intros s. apply (generateInfo_unloaded E r s Hl).
Qed.

(** X18.  [generateInfo] never reads the primary partition: two requests
    that carry the same id-token and refresh-token cookies get the same
    result, the same response and the same log entries, whatever their
    primary cookies, other cookies and query parameters are. *)
Theorem generateInfo_ignores_primary (E : Env) (r r' : Request) :
  Cookies r !! idTokenPartition = Cookies r' !! idTokenPartition ->
  Cookies r !! refreshTokenPartition = Cookies r' !! refreshTokenPartition ->
  returned (generateInfo E) r = returned (generateInfo E) r'
  /\ resp (after (generateInfo E) r) = resp (after (generateInfo E) r')
  /\ logs (after (generateInfo E) r) = logs (after (generateInfo E) r').
Proof.
  intros H1 H2. unfold returned, after.
  rewrite (generateInfo_reads_tokens_only E r r' (start r) H1 H2).
  destruct (generateInfo_uniform E r') as (res & dresp & dlogs & clear & Hrun).
  rewrite !Hrun. repeat split.
Qed.

Lemma generateInfo_ignores_primary_witness :
  returned (generateInfo Sample.E) Sample.loggedIn
  = returned (generateInfo Sample.E)
      (Sample.carrying
         (<["gangway" := sessions.Corrupt "securecookie: the value is not valid"]>
            (Cookies Sample.loggedIn)))
  /\ resp (after (generateInfo Sample.E) Sample.loggedIn)
     = resp (after (generateInfo Sample.E)
               (Sample.carrying
                  (<["gangway" :=
                       sessions.Corrupt "securecookie: the value is not valid"]>
                     (Cookies Sample.loggedIn))))
  /\ logs (after (generateInfo Sample.E) Sample.loggedIn)
     = logs (after (generateInfo Sample.E)
               (Sample.carrying
                  (<["gangway" :=
                       sessions.Corrupt "securecookie: the value is not valid"]>
                     (Cookies Sample.loggedIn)))).
Proof.
  apply (generateInfo_ignores_primary Sample.E Sample.loggedIn
           (Sample.carrying
              (<["gangway" := sessions.Corrupt "securecookie: the value is not valid"]>
                 (Cookies Sample.loggedIn)))); reflexivity.
Defined.




(** ** The pages behind the gate *)

(** X19.  When [generateInfo] returns no record, [kubeConfigHandler] and
    [commandlineHandler] return at once and leave the response, the jar and
    the log as [generateInfo] left them: nothing is marshalled and no
    template is loaded, parsed or executed. *)
Theorem callers_stop_on_nil_record (E : Env) (T : Templates) (r : Request) :
  returned (generateInfo E) r = None ->
  kubeConfigHandler E r (start r) = (None, after (generateInfo E) r)
  /\ commandlineHandler E T r (start r) = (None, after (generateInfo E) r).
Proof.
  unfold returned, after, kubeConfigHandler, commandlineHandler, bind.
  destruct (generateInfo E r (start r)) as [[info|] s']; simpl;
    [ discriminate | split; reflexivity ].
Qed.

Lemma callers_stop_on_nil_record_witness :
  kubeConfigHandler Sample.E Sample.anonymous (start Sample.anonymous)
  = (None, after (generateInfo Sample.E) Sample.anonymous)
  /\ commandlineHandler Sample.E
       (Sample.templates "" (Err "not found") (Err "not found") (None, None))
       Sample.anonymous (start Sample.anonymous)
     = (None, after (generateInfo Sample.E) Sample.anonymous).
Proof.
  apply (callers_stop_on_nil_record Sample.E
           (Sample.templates "" (Err "not found") (Err "not found") (None, None))
           Sample.anonymous).
  reflexivity.
Defined.

(** X20.  Every request to [kubeConfigHandler] gets exactly one of three
    answers: the attachment header followed by the marshalled document
    (status 200), the jar untouched; the redirect to "/" with the three
    partitions cleared; or a single 500 with the jar untouched.  A body is
    never written after an error or a redirect. *)
Theorem kubeConfigHandler_three_answers (E : Env) (r : Request) :
  (exists info d,
      returned (generateInfo E) r = Some info
      /\ yaml_Marshal E (documentOf info) = Ok d
      /\ returned (kubeConfigHandler E) r = Some tt
      /\ resp (after (kubeConfigHandler E) r)
         = [HeaderAdd "Content-Disposition" "Attachment"; BodyWrite d]
      /\ statusOf (resp (after (kubeConfigHandler E) r)) = Some 200
      /\ jar (after (kubeConfigHandler E) r) = Cookies r)
  \/ (returned (kubeConfigHandler E) r = None
      /\ resp (after (kubeConfigHandler E) r)
         = [HttpRedirect "/" StatusTemporaryRedirect]
      /\ jar (after (kubeConfigHandler E) r) = cleared (Cookies r))
  \/ (returned (kubeConfigHandler E) r = None
      /\ (exists msg, resp (after (kubeConfigHandler E) r)
                      = [HttpError msg StatusInternalServerError])
      /\ jar (after (kubeConfigHandler E) r) = Cookies r).
Proof.
  unfold returned, after, kubeConfigHandler, bind.
  destruct (generateInfo_outcome E r (start r))
    as [(info & Hf & Hr & Hj) | [(Hf & Hr & Hj) | (Hf & (msg & Hr) & Hj)]];
    revert Hf Hr Hj;
    destruct (generateInfo E r (start r)) as [res s'];
    cbn [fst snd]; intros -> Hr Hj.
  - unfold documentOf.
    destruct (generateKubeConfig info) as [info' kcfg] eqn:Hk. cbn [snd].
    destruct (yaml_Marshal E kcfg) as [d|err] eqn:Hy.
    + left. exists info, d. rewrite Hk. cbn [snd]. run. rewrite Hr, Hj.
      repeat split. exact Hy.
    + right. right. run. rewrite Hr, Hj. split_and!; eauto.
  - right. left. simpl in *. by rewrite Hr, Hj.
  - right. right. simpl in *. rewrite Hr, Hj. split_and!; eauto.
Qed.

(** ** The session gate *)

(** [loginRequired] decided by [gateOpen]. *)
Lemma loginRequired_decided root next r s :
  loginRequired root next r s
  = if gateOpen r then next r s
    else (None, {| jar := jar s;
                   resp := resp s ++ [HttpRedirect root StatusTemporaryRedirect];
                   logs := logs s; exchanges := exchanges s |}).
Proof.
  unfold loginRequired, gateOpen, readable, valuesOf, Session_Get,
    idTokenPartition.
  destruct (Cookies r !! "gangway_id_token") as [[v|e]|]; run;
    try reflexivity; destruct (bool_decide _); reflexivity.
Qed.

(** X21.  When the id-token partition does not load or holds no id_token,
    the gate answers with a single 307 redirect to the root path prefix
    and the handler behind it is not run; the gate itself clears nothing,
    so the jar is what the request carried. *)
Theorem loginRequired_blocks (root : string) (next : Request -> M unit)
    (r : Request) :
  readable r idTokenPartition = false
  \/ index (valuesOf r idTokenPartition) "id_token" = INil ->
  returned (loginRequired root next) r = None
  /\ resp (after (loginRequired root next) r)
     = [HttpRedirect root StatusTemporaryRedirect]
  /\ jar (after (loginRequired root next) r) = Cookies r
  /\ logs (after (loginRequired root next) r) = []
  /\ exchanges (after (loginRequired root next) r) = [].
Proof.
  intros Hclosed. unfold returned, after.
  rewrite loginRequired_decided.
  assert (Hg : gateOpen r = false).
  { unfold gateOpen. destruct Hclosed as [-> | ->]; [ reflexivity | ].
    rewrite bool_decide_eq_true_2 by reflexivity. apply andb_false_r. }
  rewrite Hg. repeat split.
Qed.

Lemma loginRequired_blocks_witness :
  returned (loginRequired "/gangway" (kubeConfigHandler Sample.E))
    (Sample.callback "S1") = None
  /\ resp (after (loginRequired "/gangway" (kubeConfigHandler Sample.E))
             (Sample.callback "S1"))
     = [HttpRedirect "/gangway" StatusTemporaryRedirect]
  /\ jar (after (loginRequired "/gangway" (kubeConfigHandler Sample.E))
            (Sample.callback "S1")) = Cookies (Sample.callback "S1")
  /\ logs (after (loginRequired "/gangway" (kubeConfigHandler Sample.E))
             (Sample.callback "S1")) = []
  /\ exchanges (after (loginRequired "/gangway" (kubeConfigHandler Sample.E))
                  (Sample.callback "S1")) = [].
Proof.
  apply (loginRequired_blocks "/gangway" (kubeConfigHandler Sample.E)
           (Sample.callback "S1")).
  right. reflexivity.
Defined.

(** X22.  The gate never stops a session the assembler accepts: whenever
    [generateInfo] returns a record for a request, [loginRequired] hands
    that request to the handler behind it unchanged. *)
Theorem loginRequired_passes_authenticated (E : Env) (root : string)
    (next : Request -> M unit) (r : Request) (info : userInfo) (s : HState) :
  returned (generateInfo E) r = Some info ->
  loginRequired root next r s = next r s.
Proof.
  intros Hret.
  apply generateInfo_returned in Hret
    as (idToken & refreshToken & username & issuer & [R1 _ Hid _ _] & _).
  rewrite loginRequired_decided. unfold gateOpen.
  rewrite R1, Hid. rewrite bool_decide_eq_false_2 by discriminate. reflexivity.
Qed.

Lemma loginRequired_passes_authenticated_witness :
  loginRequired "/gangway" (kubeConfigHandler Sample.E) Sample.loggedIn
    (start Sample.loggedIn)
  = kubeConfigHandler Sample.E Sample.loggedIn (start Sample.loggedIn).
Proof.
  apply (loginRequired_passes_authenticated Sample.E "/gangway"
           (kubeConfigHandler Sample.E) Sample.loggedIn Sample.info).
  vm_compute. reflexivity.
Defined.



(** X24.  A refresh-token cookie that does not decode is never cleared.
    With a stored id_token the gate lets the request through, the handler
    behind it answers 500, and the jar is unchanged: the next request
    carries the same cookie and meets the same answer. *)
Theorem broken_refresh_cookie_stays (E : Env) (root : string) (r : Request) :
  readable r idTokenPartition = true ->
  index (valuesOf r idTokenPartition) "id_token" <> INil ->
  readable r refreshTokenPartition = false ->
  returned (loginRequired root (kubeConfigHandler E)) r = None
  /\ resp (after (loginRequired root (kubeConfigHandler E)) r)
     = [HttpError "Internal Server Error" StatusInternalServerError]
  /\ jar (after (loginRequired root (kubeConfigHandler E)) r) = Cookies r
  /\ forall r2 : Request,
       Cookies r2 = jar (after (loginRequired root (kubeConfigHandler E)) r) ->
       resp (after (loginRequired root (kubeConfigHandler E)) r2)
       = [HttpError "Internal Server Error" StatusInternalServerError].
Proof.
  intros R1 Hnn R2.
  assert (Hrun : forall r2, Cookies r2 = Cookies r ->
            loginRequired root (kubeConfigHandler E) r2 (start r2)
            = (None, {| jar := Cookies r2;
                        resp := [HttpError "Internal Server Error"
                                   StatusInternalServerError];
                        logs := caLogs E; exchanges := [] |})).
  { intros r2 Hjar. rewrite loginRequired_decided.
    unfold gateOpen, readable, valuesOf in *. rewrite Hjar.
    rewrite R1, bool_decide_eq_false_2 by exact Hnn. cbn [andb negb].
    unfold kubeConfigHandler, bind.
    rewrite (generateInfo_unloaded E r2 (start r2));
      [ simpl; by rewrite ?Hjar | ].
    unfold readable. rewrite Hjar, R2. apply andb_false_r. }
  unfold returned, after. rewrite (Hrun r eq_refl). cbn [fst snd resp jar].
  split_and!; try reflexivity.
  intros r2 Hjar. by rewrite (Hrun r2 Hjar).
Qed.

Lemma broken_refresh_cookie_stays_witness :
  returned (loginRequired "/gangway" (kubeConfigHandler Sample.E))
    Sample.brokenRefresh = None
  /\ resp (after (loginRequired "/gangway" (kubeConfigHandler Sample.E))
             Sample.brokenRefresh)
     = [HttpError "Internal Server Error" StatusInternalServerError]
  /\ jar (after (loginRequired "/gangway" (kubeConfigHandler Sample.E))
            Sample.brokenRefresh) = Cookies Sample.brokenRefresh
  /\ forall r2 : Request,
       Cookies r2
       = jar (after (loginRequired "/gangway" (kubeConfigHandler Sample.E))
                Sample.brokenRefresh) ->
       resp (after (loginRequired "/gangway" (kubeConfigHandler Sample.E)) r2)
       = [HttpError "Internal Server Error" StatusInternalServerError].
Proof.
  apply (broken_refresh_cookie_stays Sample.E "/gangway" Sample.brokenRefresh);
    [ reflexivity | discriminate | reflexivity ].
Defined.

(** ** Login and logout *)

(** The three ways [loginHandler] can end. *)
Lemma loginHandler_decided E L r s :
  loginHandler E L r s
  = match Session_Get r "gangway" with
    | Err err =>
        (None, {| jar := jar s;
                  resp := resp s ++ [HttpError err StatusInternalServerError];
                  logs := logs s ++ [LogError ("Got an error in login: " +:+ err)];
                  exchanges := exchanges s |})
    | Ok _ =>
        match Save_err E primary (loginValues L r) with
        | Some err =>
            (None, {| jar := jar s;
                      resp := resp s ++ [HttpError err StatusInternalServerError];
                      logs := logs s; exchanges := exchanges s |})
        | None =>
            (Some tt,
             {| jar := <[primary := sessions.Valid (loginValues L r)]> (jar s);
                resp := resp s
                        ++ [HttpRedirect
                              (AuthCodeURL L (issuedState L) (Audience L))
                              StatusTemporaryRedirect];
                logs := logs s; exchanges := exchanges s |})
        end
    end.
Proof.
  unfold loginHandler, loginValues, issuedState, primary.
  destruct (Session_Get r "gangway") as [session|err] eqn:Hget.
  - apply readable_valuesOf in Hget as [_ ->]. run.
    destruct (Save_err E "gangway" _); reflexivity.
  - run. reflexivity.
Qed.



(** X26.  [loginHandler] never redirects to the provider without having
    saved the state.  Either it runs to its end, the response is the
    single 307 redirect and the jar holds the primary partition with the
    issued state under state, its other values kept; or it returns early
    with a single 500 and the jar is what the request carried. *)
Theorem loginHandler_redirect_only_after_save (E : Env) (L : Login)
    (r : Request) :
  (returned (loginHandler E L) r = Some tt
   /\ resp (after (loginHandler E L) r)
      = [HttpRedirect (AuthCodeURL L (issuedState L) (Audience L))
           StatusTemporaryRedirect]
   /\ (exists values,
         jar (after (loginHandler E L) r) !! primary = Some (sessions.Valid values)
         /\ index values "state" = IString (issuedState L)
         /\ forall k, k <> "state" -> values !! k = valuesOf r primary !! k))
  \/ (returned (loginHandler E L) r = None
      /\ (exists err, resp (after (loginHandler E L) r)
                      = [HttpError err StatusInternalServerError])
      /\ jar (after (loginHandler E L) r) = Cookies r).
Proof.
  unfold returned, after. rewrite loginHandler_decided.
  destruct (Session_Get r "gangway") as [session|err].
  - destruct (Save_err E primary (loginValues L r)) as [err|].
    + right. split_and!; eauto.
    + left. split_and!; try reflexivity.
      exists (loginValues L r). cbn [snd jar start].
      rewrite lookup_insert_eq. unfold loginValues, index.
      rewrite lookup_insert_eq. split_and!; try reflexivity.
      intros k Hk. by rewrite lookup_insert_ne.
  - right. split_and!; eauto.
Qed.

(** X27.  [logoutHandler] answers every request with the single 307
    redirect to the root path prefix and leaves a jar without the three
    partitions, every other cookie kept.  A request that carries this jar
    is stopped by the gate, and [generateInfo] returns no record for it. *)
Theorem logoutHandler_ends_session (root : string) (r : Request) :
  returned (logoutHandler root) r = Some tt
  /\ resp (after (logoutHandler root) r)
     = [HttpRedirect root StatusTemporaryRedirect]
  /\ jar (after (logoutHandler root) r) = cleared (Cookies r)
  /\ (forall name, outside name ->
        jar (after (logoutHandler root) r) !! name = Cookies r !! name)
  /\ forall (r2 : Request) (next : Request -> M unit) (E : Env),
       Cookies r2 = jar (after (logoutHandler root) r) ->
       resp (after (loginRequired root next) r2)
       = [HttpRedirect root StatusTemporaryRedirect]
       /\ returned (loginRequired root next) r2 = None
       /\ returned (generateInfo E) r2 = None.
Proof.
  unfold returned, after, logoutHandler. run.
  split_and!; try reflexivity.
  - intros name (N1 & N2 & N3).
    unfold primary, idTokenPartition, refreshTokenPartition in *.
    by rewrite !lookup_delete_ne.
  - intros r2 next E Hjar.
    assert (Hid : Cookies r2 !! idTokenPartition = None)
      by (rewrite Hjar; apply (cleared_lookup (Cookies r)); auto).
    assert (Href : Cookies r2 !! refreshTokenPartition = None)
      by (rewrite Hjar; apply (cleared_lookup (Cookies r)); auto).
    rewrite loginRequired_decided.
    unfold gateOpen, readable, valuesOf. rewrite Hid. cbn.
    split_and!; try reflexivity.
    rewrite (generateInfo_unauthenticated E r2 (start r2)); [ reflexivity | | | ].
    + unfold readable. by rewrite Hid.
    + unfold readable. by rewrite Href.
    + left. unfold valuesOf. by rewrite Hid.
Qed.

(** ** Template pages *)

(** [serveTemplate] up to the loading of the template. *)
Lemma serveTemplate_found T tmplFile data s :
  serveTemplate T tmplFile data s
  = call (templateData <~ try_ (templateFound T tmplFile)
            (fun err =>
               log_Errorf ("Failed to find template asset: " +:+ tmplFile
                           +:+ " at path: " +:+ templatePathOf T tmplFile) ;;;
               http_Error err StatusInternalServerError) ;;
          let '(tmpl, err) := Parse T tmplFile (string_of_bytes templateData) in
          whenErr err
            (fun e => log_Errorf ("Failed to parse template: " +:+ e) ;;;
                      http_Error e StatusInternalServerError) ;;;
          ExecuteTemplate T tmpl tmplFile data) s.
Proof.
  unfold serveTemplate, templateFound, templatePathOf.
  destruct (String.eqb (CustomHTMLTemplatesDir T) ""); reflexivity.
Qed.

(** X28.  A template that cannot be loaded is answered with a single 500
    carrying the loader's error, logged with the file and the path tried;
    the template is neither parsed nor executed.  With a custom template
    directory configured the file is read from that directory only: the
    embedded assets are not consulted, not even when the read fails. *)
Theorem serveTemplate_load_failure (T : Templates) (tmplFile : string)
    (data : TemplateData) (s : HState) (err : string) :
  (if String.eqb (CustomHTMLTemplatesDir T) ""
   then FSByte T (filepath_Join T templatesBase tmplFile)
   else ioutil_ReadFile T (filepath_Join T (CustomHTMLTemplatesDir T) tmplFile))
  = Err err ->
  serveTemplate T tmplFile data s
  = (Some tt,
     {| jar := jar s;
        resp := resp s ++ [HttpError err StatusInternalServerError];
        logs := logs s
                ++ [LogError ("Failed to find template asset: " +:+ tmplFile
                              +:+ " at path: "
                              +:+ (if String.eqb (CustomHTMLTemplatesDir T) ""
                                   then filepath_Join T templatesBase tmplFile
                                   else filepath_Join T (CustomHTMLTemplatesDir T)
                                          tmplFile))];
        exchanges := exchanges s |}).
Proof.
  intros Hfound. rewrite serveTemplate_found.
  unfold templateFound, templatePathOf.
  destruct (String.eqb (CustomHTMLTemplatesDir T) "");
    rewrite Hfound; reflexivity.
Qed.

Lemma serveTemplate_load_failure_witness :
  serveTemplate
    (Sample.templates "/etc/gangway/templates"
       (Err "open /etc/gangway/templates/home.tmpl: no such file or directory")
       (Ok (bytes_of_string "<html>home</html>"))
       (Some {| tmpl_Name := "home.tmpl"; tmpl_Text := "<html>home</html>" |}, None))
    "home.tmpl" (HomeData {| home.HTTPPath := "/gangway" |})
    (start Sample.anonymous)
  = (Some tt,
     {| jar := jar (start Sample.anonymous);
        resp := resp (start Sample.anonymous)
                ++ [HttpError
                      "open /etc/gangway/templates/home.tmpl: no such file or directory"
                      StatusInternalServerError];
        logs := logs (start Sample.anonymous)
                ++ [LogError ("Failed to find template asset: " +:+ "home.tmpl"
                              +:+ " at path: "
                              +:+ "/etc/gangway/templates/home.tmpl")];
        exchanges := exchanges (start Sample.anonymous) |}).
Proof.
  apply (serveTemplate_load_failure
           (Sample.templates "/etc/gangway/templates"
              (Err "open /etc/gangway/templates/home.tmpl: no such file or directory")
              (Ok (bytes_of_string "<html>home</html>"))
              (Some {| tmpl_Name := "home.tmpl";
                       tmpl_Text := "<html>home</html>" |}, None))
           "home.tmpl" (HomeData {| home.HTTPPath := "/gangway" |})
           (start Sample.anonymous)).
  reflexivity.
Defined.

(** X29.  A template that does not parse does not end [serveTemplate].
    The parse error is logged and written as a 500, and the function goes
    on to execute whatever template value [Parse] returned beside the
    error, on a response that already carries the 500. *)
Theorem serveTemplate_parse_failure_goes_on (T : Templates) (tmplFile : string)
    (data : TemplateData) (s : HState) (text : bytes) (tmpl : option Template)
    (err : string) :
  (if String.eqb (CustomHTMLTemplatesDir T) ""
   then FSByte T (filepath_Join T templatesBase tmplFile)
   else ioutil_ReadFile T (filepath_Join T (CustomHTMLTemplatesDir T) tmplFile))
  = Ok text ->
  Parse T tmplFile (string_of_bytes text) = (tmpl, Some err) ->
  serveTemplate T tmplFile data s
  = (Some tt,
     snd (ExecuteTemplate T tmpl tmplFile data
            {| jar := jar s;
               resp := resp s ++ [HttpError err StatusInternalServerError];
               logs := logs s ++ [LogError ("Failed to parse template: " +:+ err)];
               exchanges := exchanges s |})).
Proof.
  intros Hfound Hparse. rewrite serveTemplate_found.
  unfold templateFound, templatePathOf.
  destruct (String.eqb (CustomHTMLTemplatesDir T) "");
    rewrite Hfound; unfold call, bind, try_, ret; rewrite Hparse; reflexivity.
Qed.

Lemma serveTemplate_parse_failure_goes_on_witness :
  serveTemplate
    (Sample.templates "" (Err "unused") (Ok (bytes_of_string "{{"))
       (None, Some "template: home.tmpl:1: unclosed action"))
    "home.tmpl" (HomeData {| home.HTTPPath := "/gangway" |})
    (start Sample.anonymous)
  = (Some tt,
     snd (ExecuteTemplate
            (Sample.templates "" (Err "unused") (Ok (bytes_of_string "{{"))
               (None, Some "template: home.tmpl:1: unclosed action"))
            None "home.tmpl" (HomeData {| home.HTTPPath := "/gangway" |})
            {| jar := jar (start Sample.anonymous);
               resp := resp (start Sample.anonymous)
                       ++ [HttpError "template: home.tmpl:1: unclosed action"
                             StatusInternalServerError];
               logs := logs (start Sample.anonymous)
                       ++ [LogError ("Failed to parse template: "
                                     +:+ "template: home.tmpl:1: unclosed action")];
               exchanges := exchanges (start Sample.anonymous) |})).
Proof.
  apply (serveTemplate_parse_failure_goes_on
           (Sample.templates "" (Err "unused") (Ok (bytes_of_string "{{"))
              (None, Some "template: home.tmpl:1: unclosed action"))
           "home.tmpl" (HomeData {| home.HTTPPath := "/gangway" |})
           (start Sample.anonymous) (bytes_of_string "{{") None
           "template: home.tmpl:1: unclosed action"); reflexivity.
Defined.
